(** * angular-switch-form: the validator-switching logic of [SwitchFormComponent]

    The component keeps a typed reactive form ([FormGroup<SwitchForm>]) with one
    radio control ([customerType]) and four text controls.  A signal holds the
    selected customer type, a computed signal derives the list of dynamically
    displayed controls, and an effect calls [_switchValidators] on that list.

    The development has three layers:
    - the part of Angular's reactive-forms API the component calls
      ([FormControl], [setValidators], [clearValidators],
      [updateValueAndValidity], [Validators.required]);
    - the component itself, with the names of the TypeScript source;
    - [Module Runtime], the same method over type-erased JavaScript objects
      (string keys, property lookups that may yield [undefined]). *)

From Stdlib Require Import List String Bool.
Import ListNotations.
Open Scope string_scope.
Open Scope list_scope.

Set Implicit Arguments.

(* ------------------------------------------------------------------------- *)
(** ** JavaScript arrays and objects *)

(** [Array.prototype.forEach] with a callback that mutates a state [S]. *)
Definition forEach {A S : Type} (xs : list A) (callback : A -> S -> S) (s : S) : S :=
  fold_left (fun acc x => callback x acc) xs s.

(** [Array.prototype.includes]. *)
Definition includes {A : Type} (eqb : A -> A -> bool) (xs : list A) (x : A) : bool :=
  existsb (eqb x) xs.

(** An object literal: its properties in insertion order. *)
Definition Obj (K V : Type) : Type := list (K * V).

(** [Object.keys(o)]. *)
Definition Object_keys {K V : Type} (o : Obj K V) : list K := map fst o.

(** [o[k]] as a read of an own property; [None] is JavaScript's [undefined].
    Names that every object inherits are listed in [Object_prototype_names]. *)
Fixpoint obj_get {K V : Type} (eqb : K -> K -> bool) (o : Obj K V) (k : K) : option V :=
  match o with
  | [] => None
  | (k', v) :: o' => if eqb k k' then Some v else obj_get eqb o' k
  end.

(** [o[k] = v]: overwrite in place, or append a new property. *)
Fixpoint obj_set {K V : Type} (eqb : K -> K -> bool) (k : K) (v : V) (o : Obj K V) : Obj K V :=
  match o with
  | [] => [(k, v)]
  | (k', v') :: o' =>
      if eqb k k' then (k, v) :: o' else (k', v') :: obj_set eqb k v o'
  end.

(** [{...res, ...extra}]. *)
Definition obj_spread {K V : Type} (eqb : K -> K -> bool) (res extra : Obj K V) : Obj K V :=
  fold_left (fun acc kv => obj_set eqb (fst kv) (snd kv) acc) extra res.

(* ------------------------------------------------------------------------- *)
(** ** The reactive-forms API used by the component *)

(** [ValidationErrors = {[key: string]: any}]; the payloads that occur are
    booleans ([{required: true}]). *)
Definition ValidationErrors : Type := Obj string bool.

(** [FormControlStatus].  No control of this form is ever disabled and no
    asynchronous validator is installed, so [PENDING] and [DISABLED] do not
    arise. *)
Inductive FormControlStatus : Type := VALID | INVALID.

(** Every control of the form holds a string at run time (the radio holds the
    literal ['individual'] or ['corporate']); [js_string] is that view. *)
Class JsString (T : Type) : Type := js_string : T -> string.

#[export] Instance JsString_string : JsString string := fun s => s.

(** [ValidatorFn = (control: AbstractControl) => ValidationErrors | null].
    A validator reads the control's value. *)
Definition ValidatorFn : Type := string -> option ValidationErrors.

Module Validators.

(** [isEmptyInputValue] on a string value. *)
Definition isEmptyInputValue (v : string) : bool := Nat.eqb (String.length v) 0.

(** [Validators.required]. *)
Definition required : ValidatorFn :=
  fun v => if isEmptyInputValue v then Some [("required", true)] else None.

(** [mergeErrors]: spread every non-null result into one object; an object
    without keys is reported as [null]. *)
Definition mergeErrors (arrayOfErrors : list (option ValidationErrors))
  : option ValidationErrors :=
  let res :=
    fold_left
      (fun res errors =>
         match errors with
         | Some e => obj_spread String.eqb res e
         | None => res
         end)
      arrayOfErrors [] in
  match res with
  | [] => None
  | _ :: _ => Some res
  end.

(** [Validators.compose]: [null] for an empty array. *)
Definition compose (validators : list ValidatorFn) : option ValidatorFn :=
  match validators with
  | [] => None
  | _ :: _ => Some (fun v => mergeErrors (map (fun f => f v) validators))
  end.

End Validators.

(** A [FormControl<T>]: its value, its synchronous validators (Angular's
    [null] and the empty array are both the empty list: either way the
    [validator] getter is [null]), its errors and its status. *)
Record FormControl (T : Type) : Type := mkFormControl {
  value : T;
  validators : list ValidatorFn;
  errors : option ValidationErrors;
  status : FormControlStatus
}.

(** [new FormControl(v, { nonNullable: true })]: no validators, valid. *)
Definition new_FormControl {T : Type} (v : T) : FormControl T :=
  {| value := v; validators := []; errors := None; status := VALID |}.

Section ControlMethods.

Context {T : Type} `{JsString T}.

(** [control.clearValidators()]. *)
Definition clearValidators (c : FormControl T) : FormControl T :=
  {| value := value c; validators := []; errors := errors c; status := status c |}.

(** [control.setValidators(vs)]. *)
Definition setValidators (vs : list ValidatorFn) (c : FormControl T) : FormControl T :=
  {| value := value c; validators := vs; errors := errors c; status := status c |}.

(** [_runValidator]: [this.validator ? this.validator(this) : null]. *)
Definition _runValidator (c : FormControl T) : option ValidationErrors :=
  match Validators.compose (validators c) with
  | Some validator => validator (js_string (value c))
  | None => None
  end.

(** [_calculateStatus] for an enabled control without pending validators. *)
Definition _calculateStatus (e : option ValidationErrors) : FormControlStatus :=
  match e with
  | Some _ => INVALID
  | None => VALID
  end.

(** The control's own part of [updateValueAndValidity()]: errors and status
    are recomputed from the validators and the value. *)
Definition revalidate (c : FormControl T) : FormControl T :=
  let e := _runValidator c in
  {| value := value c; validators := validators c;
     errors := e; status := _calculateStatus e |}.

(** [control.setValue(v)] without the re-validation that follows it. *)
Definition assign (v : T) (c : FormControl T) : FormControl T :=
  {| value := v; validators := validators c; errors := errors c; status := status c |}.

End ControlMethods.

(* ------------------------------------------------------------------------- *)
(** ** The component's types and tables *)

(** [type CustomerType = 'individual' | 'corporate']. *)
Inductive CustomerType : Type := individual | corporate.

#[export] Instance JsString_CustomerType : JsString CustomerType :=
  fun c =>
    match c with
    | individual => "individual"
    | corporate => "corporate"
    end.

(** [interface SwitchForm]. *)
Record SwitchForm : Type := mkSwitchForm {
  customerType : FormControl CustomerType;
  name : FormControl string;
  nameKana : FormControl string;
  companyName : FormControl string;
  companyNameKana : FormControl string
}.

(** [keyof SwitchForm]. *)
Module Key.

Inductive t : Type := customerType | name | nameKana | companyName | companyNameKana.

Definition eqb (a b : t) : bool :=
  match a, b with
  | customerType, customerType
  | name, name
  | nameKana, nameKana
  | companyName, companyName
  | companyNameKana, companyNameKana => true
  | _, _ => false
  end.

(** The property name, as the string it is at run time. *)
Definition to_string (k : t) : string :=
  match k with
  | customerType => "customerType"
  | name => "name"
  | nameKana => "nameKana"
  | companyName => "companyName"
  | companyNameKana => "companyNameKana"
  end.

End Key.

(** The value type of [SwitchForm[k]]. *)
Definition ControlValue (k : Key.t) : Type :=
  match k with
  | Key.customerType => CustomerType
  | _ => string
  end.

#[export] Instance JsString_ControlValue (k : Key.t) : JsString (ControlValue k) :=
  match k return JsString (ControlValue k) with
  | Key.customerType => JsString_CustomerType
  | Key.name | Key.nameKana | Key.companyName | Key.companyNameKana => JsString_string
  end.

(** [controls[form]]. *)
Definition control (g : SwitchForm) (form : Key.t) : FormControl (ControlValue form) :=
  match form return FormControl (ControlValue form) with
  | Key.customerType => customerType g
  | Key.name => name g
  | Key.nameKana => nameKana g
  | Key.companyName => companyName g
  | Key.companyNameKana => companyNameKana g
  end.

(** The form after a method of [controls[form]] has left that control as [c]. *)
Definition set_control (form : Key.t) : FormControl (ControlValue form) -> SwitchForm -> SwitchForm :=
  match form return FormControl (ControlValue form) -> SwitchForm -> SwitchForm with
  | Key.customerType => fun c g =>
      mkSwitchForm c (name g) (nameKana g) (companyName g) (companyNameKana g)
  | Key.name => fun c g =>
      mkSwitchForm (customerType g) c (nameKana g) (companyName g) (companyNameKana g)
  | Key.nameKana => fun c g =>
      mkSwitchForm (customerType g) (name g) c (companyName g) (companyNameKana g)
  | Key.companyName => fun c g =>
      mkSwitchForm (customerType g) (name g) (nameKana g) c (companyNameKana g)
  | Key.companyNameKana => fun c g =>
      mkSwitchForm (customerType g) (name g) (nameKana g) (companyName g) c
  end.

(** [const defaultDisplayForms = ['customerType']]. *)
Definition defaultDisplayForms : list Key.t := [Key.customerType].

(** [const dynamicDisplayFormsPattern]. *)
Definition dynamicDisplayFormsPattern (customerType : CustomerType) : list Key.t :=
  match customerType with
  | individual => [Key.name; Key.nameKana]
  | corporate => [Key.companyName; Key.companyNameKana]
  end.

(** [const formValidationManager]. *)
Definition formValidationManager (key : Key.t) : list ValidatorFn :=
  match key with
  | Key.customerType => []
  | Key.name => [Validators.required]
  | Key.nameKana => [Validators.required]
  | Key.companyName => [Validators.required]
  | Key.companyNameKana => [Validators.required]
  end.

(** [Object.keys(formValidationManager)]: the properties of the literal, in
    the order they are written. *)
Definition formValidationManager_keys : list Key.t :=
  [Key.customerType; Key.name; Key.nameKana; Key.companyName; Key.companyNameKana].

(* ------------------------------------------------------------------------- *)
(** ** The form group *)

Module FormGroup.

(** [FormGroup<SwitchForm>]: the controls and the group's own status. *)
Record t : Type := mk {
  controls : SwitchForm;
  status : FormControlStatus
}.

End FormGroup.

Definition is_INVALID (s : FormControlStatus) : bool :=
  match s with
  | INVALID => true
  | VALID => false
  end.

(** The group's [_calculateStatus]: the group has no validator of its own, so
    it is invalid exactly when one of its controls is. *)
Definition group_calculateStatus (g : SwitchForm) : FormControlStatus :=
  if existsb (fun k => is_INVALID (status (control g k)))
       [Key.customerType; Key.name; Key.nameKana; Key.companyName; Key.companyNameKana]
  then INVALID else VALID.

(** [switchForm.controls[form].clearValidators()]. *)
Definition control_clearValidators (form : Key.t) (fg : FormGroup.t) : FormGroup.t :=
  FormGroup.mk
    (set_control form (clearValidators (control (FormGroup.controls fg) form))
       (FormGroup.controls fg))
    (FormGroup.status fg).

(** [switchForm.controls[form].setValidators(vs)]. *)
Definition control_setValidators (form : Key.t) (vs : list ValidatorFn) (fg : FormGroup.t)
  : FormGroup.t :=
  FormGroup.mk
    (set_control form (setValidators vs (control (FormGroup.controls fg) form))
       (FormGroup.controls fg))
    (FormGroup.status fg).

(** [switchForm.controls[form].updateValueAndValidity()]: the control is
    re-validated, then its parent recomputes its status.  The events it emits
    are not part of this function: the component has one subscriber, on
    [customerType.valueChanges] (see [customerType_valueChanges]); it is run
    by [emit_valueChanges], in [switchValidatorsWith]. *)
Definition control_updateValueAndValidity (form : Key.t) (fg : FormGroup.t) : FormGroup.t :=
  let cs :=
    set_control form (revalidate (control (FormGroup.controls fg) form))
      (FormGroup.controls fg) in
  FormGroup.mk cs (group_calculateStatus cs).

(** [switchForm.controls[form].setValue(v)]. *)
Definition control_setValue (form : Key.t) (v : ControlValue form) (fg : FormGroup.t)
  : FormGroup.t :=
  control_updateValueAndValidity form
    (FormGroup.mk
       (set_control form (assign v (control (FormGroup.controls fg) form))
          (FormGroup.controls fg))
       (FormGroup.status fg)).

(* ------------------------------------------------------------------------- *)
(** ** [SwitchFormComponent] *)

Record SwitchFormComponent : Type := mkComponent {
  _currentCustomerType : option CustomerType;   (* signal<CustomerType | null> *)
  switchForm : FormGroup.t
}.

(** The field initialisers: the signal holds [null], the form is built from
    five fresh controls. *)
Definition new_SwitchFormComponent : SwitchFormComponent :=
  {| _currentCustomerType := None;
     switchForm :=
       FormGroup.mk
         {| customerType := new_FormControl individual;
            name := new_FormControl "";
            nameKana := new_FormControl "";
            companyName := new_FormControl "";
            companyNameKana := new_FormControl "" |}
         VALID |}.

(** A statement of a method body that mutates [this.switchForm]. *)
Definition on_switchForm (f : FormGroup.t -> FormGroup.t) (this : SwitchFormComponent)
  : SwitchFormComponent :=
  {| _currentCustomerType := _currentCustomerType this;
     switchForm := f (switchForm this) |}.

(** [_getDynamicDisplayForms]. *)
Definition _getDynamicDisplayForms (customerType : CustomerType) : list Key.t :=
  dynamicDisplayFormsPattern customerType.

(** [a ?? b]. *)
Definition nullish {A : Type} (a : option A) (b : A) : A :=
  match a with
  | Some x => x
  | None => b
  end.

(** The computed signal [dynamicDisplayForms]. *)
Definition dynamicDisplayForms (this : SwitchFormComponent) : list Key.t :=
  _getDynamicDisplayForms (nullish (_currentCustomerType this) individual).

(** The forms that loop [2] of [_switchValidators] visits:
    [allForms.filter(form => !(dynamicDisplayForms.includes(form) ||
    defaultDisplayForms.includes(form)))]. *)
Definition hiddenForms (allForms dynamicDisplayForms : list Key.t) : list Key.t :=
  filter
    (fun form =>
       negb (includes Key.eqb dynamicDisplayForms form
             || includes Key.eqb defaultDisplayForms form))
    allForms.

(** [_switchValidators]. *)
Definition _switchValidators (dynamicDisplayForms : list Key.t) (this : SwitchFormComponent)
  : SwitchFormComponent :=
  let allForms := formValidationManager_keys in
  (* [1] *)
  let this :=
    forEach dynamicDisplayForms
      (fun form this =>
         let this := on_switchForm (control_clearValidators form) this in
         let this :=
           on_switchForm (control_setValidators form (formValidationManager form)) this in
         on_switchForm (control_updateValueAndValidity form) this)
      this in
  (* [2] *)
  forEach (hiddenForms allForms dynamicDisplayForms)
    (fun form this =>
       let this := on_switchForm (control_clearValidators form) this in
       on_switchForm (control_updateValueAndValidity form) this)
    this.

(** The subscriber that [ngOnInit] registers on [customerType.valueChanges]:
    [(value) => this._currentCustomerType.set(value)]. *)
Definition customerType_valueChanges (value : CustomerType) (this : SwitchFormComponent)
  : SwitchFormComponent :=
  {| _currentCustomerType := Some value; switchForm := switchForm this |}.

(** [ngOnInit]: after subscribing, the signal is set to the radio's value. *)
Definition ngOnInit (this : SwitchFormComponent) : SwitchFormComponent :=
  customerType_valueChanges
    (value (customerType (FormGroup.controls (switchForm this)))) this.

(** The body of the effect registered in the constructor. *)
Definition _switchValidatorsEffect (this : SwitchFormComponent) : SwitchFormComponent :=
  _switchValidators (dynamicDisplayForms this) this.

(** Equality of two results of the computed signal.  Angular compares them
    with [Object.is]; the two arrays of [dynamicDisplayFormsPattern] differ in
    content, so they are the same object exactly when they are equal lists. *)
Fixpoint same_forms (a b : list Key.t) : bool :=
  match a, b with
  | [], [] => true
  | x :: a', y :: b' => Key.eqb x y && same_forms a' b'
  | _, _ => false
  end.

(** The user picks a customer type: the radio control takes the value, the
    subscriber publishes it to the signal, and the effect runs again when the
    computed signal has changed.  This is the selection together with the
    flush of the effect that change detection performs after it
    ([publishCustomerType], then [flushEffect]); [alive] has the states in
    between. *)
Definition selectCustomerType (c : CustomerType) (this : SwitchFormComponent)
  : SwitchFormComponent :=
  let before := dynamicDisplayForms this in
  let this := on_switchForm (control_setValue Key.customerType c) this in
  let this := customerType_valueChanges c this in
  if same_forms before (dynamicDisplayForms this) then this
  else _switchValidatorsEffect this.

(** The states of a component during its life: creation, then in any order
    [ngOnInit], a value set on any control (by the user), the subscriber
    firing, and a run of the effect. *)
Inductive reachable : SwitchFormComponent -> Prop :=
| reach_new : reachable new_SwitchFormComponent
| reach_ngOnInit this :
    reachable this -> reachable (ngOnInit this)
| reach_setValue this form v :
    reachable this -> reachable (on_switchForm (control_setValue form v) this)
| reach_effect this :
    reachable this -> reachable (_switchValidatorsEffect this)
| reach_select this c :
    reachable this -> reachable (selectCustomerType c this).

(** The component once it is displayed: created, initialised, effect run. *)
Definition displayed : SwitchFormComponent :=
  _switchValidatorsEffect (ngOnInit new_SwitchFormComponent).

(* ------------------------------------------------------------------------- *)
(** ** What one pass of a loop does to one control *)

(** Loop [1] on a control: validators replaced by the table's, re-validated. *)
Definition applied (form : Key.t) (c : FormControl (ControlValue form))
  : FormControl (ControlValue form) :=
  revalidate (setValidators (formValidationManager form) (clearValidators c)).

(** Loop [2] on a control: validators cleared, re-validated. *)
Definition cleared (form : Key.t) (c : FormControl (ControlValue form))
  : FormControl (ControlValue form) :=
  revalidate (clearValidators c).

(** A loop body that leaves [controls[form]] as [F form] of what it was and
    lets the group recompute its status. *)
Definition touch
    (F : forall k, FormControl (ControlValue k) -> FormControl (ControlValue k))
    (form : Key.t) (this : SwitchFormComponent) : SwitchFormComponent :=
  let cs := FormGroup.controls (switchForm this) in
  let cs' := set_control form (F form (control cs form)) cs in
  {| _currentCustomerType := _currentCustomerType this;
     switchForm := FormGroup.mk cs' (group_calculateStatus cs') |}.

(** The group's status agrees with its controls. *)
Definition settled (this : SwitchFormComponent) : Prop :=
  FormGroup.status (switchForm this)
  = group_calculateStatus (FormGroup.controls (switchForm this)).

(** The control [k] of the component's form. *)
Definition control_of (this : SwitchFormComponent) (k : Key.t)
  : FormControl (ControlValue k) :=
  control (FormGroup.controls (switchForm this)) k.

(** What [_switchValidators] leaves in [controls[k]], in closed form. *)
Definition switched (dynamicDisplayForms : list Key.t) (k : Key.t)
    (c : FormControl (ControlValue k)) : FormControl (ControlValue k) :=
  if includes Key.eqb dynamicDisplayForms k then applied k c
  else if includes Key.eqb defaultDisplayForms k then c
  else cleared k c.

(** The radio control has no validator, no error and is valid. *)
Definition customerType_unvalidated (this : SwitchFormComponent) : Prop :=
  validators (control_of this Key.customerType) = []
  /\ errors (control_of this Key.customerType) = None
  /\ status (control_of this Key.customerType) = VALID.

(** A state in which [customerType] carries a validator and a stale status. *)
Definition stale_component : SwitchFormComponent :=
  {| _currentCustomerType := Some corporate;
     switchForm :=
       FormGroup.mk
         {| customerType :=
              {| value := corporate; validators := [Validators.required];
                 errors := Some [("required", true)]; status := INVALID |};
            name := new_FormControl "Taro";
            nameKana := new_FormControl "";
            companyName := new_FormControl "";
            companyNameKana := new_FormControl "" |}
         VALID |}.

(* ------------------------------------------------------------------------- *)
(** ** The same method over type-erased objects *)

(** At run time the TypeScript types are gone: a key is a string, the tables
    and [switchForm.controls] are plain objects, a property that is absent
    reads as [undefined], and a method call on [undefined] throws. *)
Module Runtime.

(** How a statement completes. *)
Inductive Completion (A : Type) : Type :=
| Normal (a : A)
| Throw_TypeError.
Arguments Throw_TypeError {A}.

Definition bind {A B : Type} (m : Completion A) (f : A -> Completion B) : Completion B :=
  match m with
  | Normal a => f a
  | Throw_TypeError => Throw_TypeError
  end.

(** [forEach] with a callback that may throw. *)
Fixpoint forEach {A S : Type} (xs : list A) (callback : A -> S -> Completion S) (s : S)
  : Completion S :=
  match xs with
  | [] => Normal s
  | x :: xs' => bind (callback x s) (forEach xs' callback)
  end.

(** The form group: [controls] is an object keyed by control name. *)
Record Group : Type := mkGroup {
  controls : Obj string (FormControl string);
  group_status : FormControlStatus
}.

Definition defaultDisplayForms : list string := ["customerType"].

Definition formValidationManager : Obj string (list ValidatorFn) :=
  [ ("customerType", []);
    ("name", [Validators.required]);
    ("nameKana", [Validators.required]);
    ("companyName", [Validators.required]);
    ("companyNameKana", [Validators.required]) ].

(** The group's [_calculateStatus]. *)
Definition group_calculateStatus (cs : Obj string (FormControl string)) : FormControlStatus :=
  if existsb (fun kv => is_INVALID (status (snd kv))) cs then INVALID else VALID.

(** [switchForm.controls[form].m()] for a method [m] that only changes the
    control: a [TypeError] when [controls[form]] is [undefined]. *)
Definition call (form : string) (m : FormControl string -> FormControl string)
    (fg : Group) : Completion Group :=
  match obj_get String.eqb (controls fg) form with
  | Some c => Normal (mkGroup (obj_set String.eqb form (m c) (controls fg)) (group_status fg))
  | None => Throw_TypeError
  end.

(** [switchForm.controls[form].updateValueAndValidity()]. *)
Definition call_updateValueAndValidity (form : string) (fg : Group)
  : Completion Group :=
  match obj_get String.eqb (controls fg) form with
  | Some c =>
      let cs := obj_set String.eqb form (revalidate c) (controls fg) in
      Normal (mkGroup cs (group_calculateStatus cs))
  | None => Throw_TypeError
  end.

(** [setValidators(vs)] where [vs] may be [undefined]: no validators then. *)
Definition setValidators_opt (vs : option (list ValidatorFn)) (c : FormControl string)
  : FormControl string :=
  setValidators (nullish vs []) c.

Definition hiddenForms (allForms dynamicDisplayForms : list string) : list string :=
  filter
    (fun form =>
       negb (includes String.eqb dynamicDisplayForms form
             || includes String.eqb defaultDisplayForms form))
    allForms.

(** [_switchValidators] on [this.switchForm]. *)
Definition _switchValidators (dynamicDisplayForms : list string) (fg : Group)
  : Completion Group :=
  let allForms := Object_keys formValidationManager in
  bind
    (forEach dynamicDisplayForms
       (fun form fg =>
          bind (call form clearValidators fg) (fun fg =>
          bind (call form
                  (setValidators_opt (obj_get String.eqb formValidationManager form)) fg)
            (fun fg =>
          call_updateValueAndValidity form fg)))
       fg)
    (fun fg =>
       forEach (hiddenForms allForms dynamicDisplayForms)
         (fun form fg =>
            bind (call form clearValidators fg) (fun fg =>
            call_updateValueAndValidity form fg))
         fg).

(** The run-time image of a typed control and of a typed form group. *)
Definition erase_control {T : Type} `{JsString T} (c : FormControl T) : FormControl string :=
  {| value := js_string (value c); validators := validators c;
     errors := errors c; status := status c |}.

Definition erase (fg : FormGroup.t) : Group :=
  let g := FormGroup.controls fg in
  mkGroup
    [ ("customerType", erase_control (customerType g));
      ("name", erase_control (name g));
      ("nameKana", erase_control (nameKana g));
      ("companyName", erase_control (companyName g));
      ("companyNameKana", erase_control (companyNameKana g)) ]
    (FormGroup.status fg).

(** Every key of the rule table names a control of the group, as in the
    group that the component constructs. *)
Definition has_all_controls (fg : Group) : Prop :=
  forall form, In form (Object_keys formValidationManager) ->
               In form (Object_keys (controls fg)).

End Runtime.

(* ------------------------------------------------------------------------- *)
(** ** The component while it is displayed *)

(** The states of the displayed component between user events: once
    [ngOnInit] has subscribed and the effect has run, the user selects
    customer types (every selection goes through the subscriber and the
    effect, flushed before the next event) and types into the text controls. *)
Inductive live : SwitchFormComponent -> Prop :=
| live_displayed : live displayed
| live_select this c :
    live this -> live (selectCustomerType c this)
| live_setValue this form v :
    form <> Key.customerType ->
    live this -> live (on_switchForm (control_setValue form v) this).

(** The signal holds the radio's value. *)
Definition in_sync (this : SwitchFormComponent) : Prop :=
  _currentCustomerType this
  = Some (value (customerType (FormGroup.controls (switchForm this)))).

(** Nothing is left for the effect to do. *)
Definition steady (this : SwitchFormComponent) : Prop :=
  in_sync this
  /\ customerType_unvalidated this
  /\ _switchValidatorsEffect this = this.

(** The forms that a call of the run-time [_switchValidators] indexes
    [switchForm.controls] with: those of loop [1], then those of loop [2]. *)
Definition visitedForms (dynamicDisplayForms : list string) : list string :=
  dynamicDisplayForms
  ++ Runtime.hiddenForms (Object_keys Runtime.formValidationManager) dynamicDisplayForms.

(** A loop body that completes normally, keeping the group's keys, when the
    form has a control, and throws when it has none. *)
Definition indexes_controls
    (body : string -> Runtime.Group -> Runtime.Completion Runtime.Group) : Prop :=
  forall form fg,
    (In form (Object_keys (Runtime.controls fg)) ->
     exists fg', body form fg = Runtime.Normal fg'
                 /\ Object_keys (Runtime.controls fg')
                    = Object_keys (Runtime.controls fg))
    /\ (~ In form (Object_keys (Runtime.controls fg)) ->
        body form fg = Runtime.Throw_TypeError).

(* ------------------------------------------------------------------------- *)
(** ** [_switchValidators] with its tables as parameters, and the subscriber *)

(** The method reads two constants, [defaultDisplayForms] and
    [formValidationManager], and its calls of [updateValueAndValidity()] emit
    [valueChanges] on the control.  Here the two tables are parameters (the
    keys of the rule table stay those of [SwitchForm]), and the one subscriber
    of the component, registered by [ngOnInit] on [customerType.valueChanges],
    is run when [subscribed] holds. *)
Section Tables.

Variable defaults : list Key.t.
Variable rules : Key.t -> list ValidatorFn.
Variable subscribed : bool.

(** What [valueChanges.emit(value)] of [controls[form]] does to the
    component: the subscriber stores the radio's value in the signal. *)
Definition emit_valueChanges (form : Key.t) (this : SwitchFormComponent)
  : SwitchFormComponent :=
  if subscribed then
    match form with
    | Key.customerType =>
        customerType_valueChanges
          (value (customerType (FormGroup.controls (switchForm this)))) this
    | _ => this
    end
  else this.

Definition hiddenFormsWith (allForms dynamicDisplayForms : list Key.t) : list Key.t :=
  filter
    (fun form =>
       negb (includes Key.eqb dynamicDisplayForms form
             || includes Key.eqb defaults form))
    allForms.

Definition switchValidatorsWith (dynamicDisplayForms : list Key.t)
    (this : SwitchFormComponent) : SwitchFormComponent :=
  let allForms := formValidationManager_keys in
  (* [1] *)
  let this :=
    forEach dynamicDisplayForms
      (fun form this =>
         let this := on_switchForm (control_clearValidators form) this in
         let this := on_switchForm (control_setValidators form (rules form)) this in
         let this := on_switchForm (control_updateValueAndValidity form) this in
         emit_valueChanges form this)
      this in
  (* [2] *)
  forEach (hiddenFormsWith allForms dynamicDisplayForms)
    (fun form this =>
       let this := on_switchForm (control_clearValidators form) this in
       let this := on_switchForm (control_updateValueAndValidity form) this in
       emit_valueChanges form this)
    this.

(** Loop [1] on a control, with the rules of the table [rules]. *)
Definition appliedWith (form : Key.t) (c : FormControl (ControlValue form))
  : FormControl (ControlValue form) :=
  revalidate (setValidators (rules form) (clearValidators c)).

(** A loop body with its event: [controls[form]] becomes [F form] of what it
    was, the group recomputes its status, the subscriber runs. *)
Definition touch_emit
    (F : forall k, FormControl (ControlValue k) -> FormControl (ControlValue k))
    (form : Key.t) (this : SwitchFormComponent) : SwitchFormComponent :=
  emit_valueChanges form (touch F form this).


End Tables.

(* ------------------------------------------------------------------------- *)
(** ** The displayed component, with the effect deferred *)

(** A selection as far as it happens at once: the radio takes the value and
    the subscriber publishes it.  The effect is only marked for a re-run. *)
Definition publishCustomerType (c : CustomerType) (this : SwitchFormComponent)
  : SwitchFormComponent :=
  customerType_valueChanges c
    (on_switchForm (control_setValue Key.customerType c) this).

(** Change detection flushes the effect: it runs again when the computed
    signal differs from [seen], the list it ran with last. *)
Definition flushEffect (seen : list Key.t) (this : SwitchFormComponent)
  : SwitchFormComponent :=
  if same_forms seen (dynamicDisplayForms this) then this
  else _switchValidatorsEffect this.

(** [alive this seen]: the displayed component can be in state [this] while
    the effect has last run with the list [seen].  Selections and text inputs
    happen at any time; the effect is flushed at any time in between, so the
    states in which a re-run is pending are included. *)
Inductive alive : SwitchFormComponent -> list Key.t -> Prop :=
| alive_displayed : alive displayed (dynamicDisplayForms displayed)
| alive_publish this seen c :
    alive this seen -> alive (publishCustomerType c this) seen
| alive_setValue this seen form v :
    form <> Key.customerType ->
    alive this seen -> alive (on_switchForm (control_setValue form v) this) seen
| alive_flush this seen :
    alive this seen -> alive (flushEffect seen this) (dynamicDisplayForms this).

(** What every state of the displayed component keeps: the signal holds the
    radio's value, the radio is not validated, and the controls are as the
    last run of the effect, with the list [seen], and the inputs since then
    left them. *)
Definition kept (this : SwitchFormComponent) (seen : list Key.t) : Prop :=
  in_sync this
  /\ customerType_unvalidated this
  /\ (exists c, seen = dynamicDisplayFormsPattern c)
  /\ _switchValidators seen this = this.

(* ------------------------------------------------------------------------- *)
(** ** Property names that every object inherits *)

(** The own property names of [Object.prototype].  A read [o[k]] of such a
    name finds the inherited property when [o] has no own one, and an
    assignment to ['__proto__'] changes the prototype; [obj_get] and
    [obj_set] describe the other names only. *)
Definition Object_prototype_names : list string :=
  [ "constructor"; "__defineGetter__"; "__defineSetter__"; "hasOwnProperty";
    "__lookupGetter__"; "__lookupSetter__"; "isPrototypeOf";
    "propertyIsEnumerable"; "toString"; "valueOf"; "__proto__";
    "toLocaleString" ].

Definition ordinary_names (names : list string) : Prop :=
  forall k, In k names -> ~ In k Object_prototype_names.

(* ------------------------------------------------------------------------- *)
(** ** Keys and controls *)

Unset Implicit Arguments.

Lemma Key_eqb_eq (a b : Key.t) : Key.eqb a b = true <-> a = b.
Proof. destruct a, b; simpl; split; intro E; congruence. Qed.

Lemma Key_eqb_refl (a : Key.t) : Key.eqb a a = true.
Proof. destruct a; reflexivity. Qed.

Lemma Key_eqb_neq (a b : Key.t) : Key.eqb a b = false <-> a <> b.
Proof.
  rewrite <- Key_eqb_eq. destruct (Key.eqb a b); split; intro E; congruence.
Qed.

Lemma Key_eq_dec (a b : Key.t) : {a = b} + {a <> b}.
Proof. decide equality. Defined.

Lemma includes_In (l : list Key.t) (k : Key.t) :
  includes Key.eqb l k = true <-> In k l.
Proof.
  unfold includes. rewrite existsb_exists. split.
  - intros (x & Hx & E). apply Key_eqb_eq in E. now subst.
  - intro Hk. exists k. split; [exact Hk | apply Key_eqb_refl].
Qed.

Lemma includes_not_In (l : list Key.t) (k : Key.t) :
  includes Key.eqb l k = false <-> ~ In k l.
Proof.
  rewrite <- includes_In. destruct (includes Key.eqb l k); split; intro E; congruence.
Qed.

Lemma includes_same_members (l l' : list Key.t) (k : Key.t) :
  (forall x, In x l <-> In x l') ->
  includes Key.eqb l k = includes Key.eqb l' k.
Proof.
  intro E. destruct (includes Key.eqb l' k) eqn:E'.
  - apply includes_In. apply E. now apply includes_In.
  - apply includes_not_In. rewrite E. now apply includes_not_In.
Qed.

Lemma formValidationManager_keys_all (k : Key.t) : In k formValidationManager_keys.
Proof. destruct k; simpl; auto 10. Qed.

Lemma control_set_control_same form c g :
  control (set_control form c g) form = c.
Proof. destruct form; reflexivity. Qed.

Lemma control_set_control_other form k c g :
  form <> k -> control (set_control form c g) k = control g k.
Proof. destruct form, k; intro N; try reflexivity; contradiction N; reflexivity. Qed.

Lemma set_control_twice form c1 c2 g :
  set_control form c2 (set_control form c1 g) = set_control form c2 g.
Proof. destruct form; reflexivity. Qed.

(** A form is determined by its five controls. *)
Lemma SwitchForm_ext (g g' : SwitchForm) :
  (forall k, control g k = control g' k) -> g = g'.
Proof.
  intro E. destruct g, g'.
  pose proof (E Key.customerType) as E1. pose proof (E Key.name) as E2.
  pose proof (E Key.nameKana) as E3. pose proof (E Key.companyName) as E4.
  pose proof (E Key.companyNameKana) as E5.
  simpl in *. congruence.
Qed.

(** A component is determined by its signal, its controls and a group status
    that agrees with the controls. *)
Lemma component_ext (a b : SwitchFormComponent) :
  _currentCustomerType a = _currentCustomerType b ->
  (forall k, control_of a k = control_of b k) ->
  settled a -> settled b ->
  a = b.
Proof.
  destruct a as [sa [ca ta]], b as [sb [cb tb]].
  unfold settled, control_of. simpl. intros Es Ec Ha Hb.
  apply SwitchForm_ext in Ec. subst. reflexivity.
Qed.

(* ------------------------------------------------------------------------- *)
(** ** The two loops of [_switchValidators] *)

Lemma applied_idem form c : applied form (applied form c) = applied form c.
Proof. reflexivity. Qed.

Lemma cleared_idem form c : cleared form (cleared form c) = cleared form c.
Proof. reflexivity. Qed.

(** The body of loop [1] is a [touch] with [applied]. *)
Lemma loop1_body form this :
  on_switchForm (control_updateValueAndValidity form)
    (on_switchForm (control_setValidators form (formValidationManager form))
       (on_switchForm (control_clearValidators form) this))
  = touch applied form this.
Proof.
  destruct this as [s [g t]]. unfold touch, on_switchForm, control_updateValueAndValidity,
    control_setValidators, control_clearValidators, applied. simpl.
  rewrite !control_set_control_same, !set_control_twice. reflexivity.
Qed.

(** The body of loop [2] is a [touch] with [cleared]. *)
Lemma loop2_body form this :
  on_switchForm (control_updateValueAndValidity form)
    (on_switchForm (control_clearValidators form) this)
  = touch cleared form this.
Proof.
  destruct this as [s [g t]]. unfold touch, on_switchForm, control_updateValueAndValidity,
    control_clearValidators, cleared. simpl.
  rewrite !control_set_control_same, !set_control_twice. reflexivity.
Qed.

Lemma switchValidators_as_touch l this :
  _switchValidators l this
  = forEach (hiddenForms formValidationManager_keys l) (touch cleared)
      (forEach l (touch applied) this).
Proof.
  unfold _switchValidators, forEach.
  assert (E1 : forall xs s,
             fold_left (fun acc x =>
               on_switchForm (control_updateValueAndValidity x)
                 (on_switchForm (control_setValidators x (formValidationManager x))
                    (on_switchForm (control_clearValidators x) acc))) xs s
             = fold_left (fun acc x => touch applied x acc) xs s).
  { induction xs as [|x xs IH]; intro s; simpl; [reflexivity|].
    rewrite loop1_body. apply IH. }
  assert (E2 : forall xs s,
             fold_left (fun acc x =>
               on_switchForm (control_updateValueAndValidity x)
                 (on_switchForm (control_clearValidators x) acc)) xs s
             = fold_left (fun acc x => touch cleared x acc) xs s).
  { induction xs as [|x xs IH]; intro s; simpl; [reflexivity|].
    rewrite loop2_body. apply IH. }
  cbv zeta. rewrite E1, E2. reflexivity.
Qed.

Section Touch.

Variable F : forall k, FormControl (ControlValue k) -> FormControl (ControlValue k).
Hypothesis F_idem : forall k c, F k (F k c) = F k c.

Lemma touch_control_same form this :
  control_of (touch F form this) form = F form (control_of this form).
Proof. unfold control_of, touch. simpl. apply control_set_control_same. Qed.

Lemma touch_control_other form k this :
  form <> k -> control_of (touch F form this) k = control_of this k.
Proof. intro N. unfold control_of, touch. simpl. now apply control_set_control_other. Qed.

Lemma touch_signal form this :
  _currentCustomerType (touch F form this) = _currentCustomerType this.
Proof. reflexivity. Qed.

Lemma touch_settled form this : settled (touch F form this).
Proof. reflexivity. Qed.

(** A loop of [touch]es leaves [F] of the control at every key of the list
    and the other controls as they were. *)
Lemma forEach_touch_control l : forall this k,
  control_of (forEach l (touch F) this) k
  = if includes Key.eqb l k then F k (control_of this k) else control_of this k.
Proof.
  induction l as [|a l IH]; intros this k; [reflexivity|].
  change (forEach (a :: l) (touch F) this) with (forEach l (touch F) (touch F a this)).
  rewrite IH. unfold includes. simpl.
  destruct (Key_eq_dec a k) as [->|N].
  - rewrite Key_eqb_refl, touch_control_same. simpl.
    destruct (existsb (Key.eqb k) l); [apply F_idem | reflexivity].
  - assert (Key.eqb k a = false) as -> by (apply Key_eqb_neq; congruence).
    rewrite touch_control_other by exact N. reflexivity.
Qed.

Lemma forEach_touch_signal l : forall this,
  _currentCustomerType (forEach l (touch F) this) = _currentCustomerType this.
Proof.
  induction l as [|a l IH]; intro this; [reflexivity|].
  change (forEach (a :: l) (touch F) this) with (forEach l (touch F) (touch F a this)).
  now rewrite IH.
Qed.

Lemma forEach_touch_settled l : forall this,
  settled this \/ l <> [] -> settled (forEach l (touch F) this).
Proof.
  induction l as [|a l IH]; intros this [S|N].
  - exact S.
  - contradiction N; reflexivity.
  - change (forEach (a :: l) (touch F) this) with (forEach l (touch F) (touch F a this)).
    apply IH. left. apply touch_settled.
  - change (forEach (a :: l) (touch F) this) with (forEach l (touch F) (touch F a this)).
    apply IH. left. apply touch_settled.
Qed.

End Touch.

Lemma hiddenForms_In l k :
  In k (hiddenForms formValidationManager_keys l)
  <-> ~ In k l /\ ~ In k defaultDisplayForms.
Proof.
  unfold hiddenForms. rewrite filter_In, negb_true_iff, orb_false_iff.
  rewrite !includes_not_In. pose proof (formValidationManager_keys_all k). tauto.
Qed.

Lemma hiddenForms_includes l k :
  includes Key.eqb (hiddenForms formValidationManager_keys l) k
  = negb (includes Key.eqb l k || includes Key.eqb defaultDisplayForms k).
Proof.
  destruct (includes Key.eqb (hiddenForms formValidationManager_keys l) k) eqn:E.
  - apply includes_In, hiddenForms_In in E. destruct E as [E1 E2].
    apply includes_not_In in E1, E2. now rewrite E1, E2.
  - apply includes_not_In in E. rewrite hiddenForms_In in E.
    destruct (includes Key.eqb l k) eqn:E1; [reflexivity|].
    destruct (includes Key.eqb defaultDisplayForms k) eqn:E2; [reflexivity|].
    apply includes_not_In in E1, E2. tauto.
Qed.

(** One of the two loops always has a form to visit. *)
Lemma some_loop_runs l :
  l <> [] \/ hiddenForms formValidationManager_keys l <> [].
Proof.
  destruct l as [|a l]; [right | left]; discriminate.
Qed.

(** [_switchValidators] in closed form, control by control. *)
Lemma switchValidators_control l this k :
  control_of (_switchValidators l this) k = switched l k (control_of this k).
Proof.
  rewrite switchValidators_as_touch.
  rewrite (forEach_touch_control cleared cleared_idem).
  rewrite (forEach_touch_control applied applied_idem).
  rewrite hiddenForms_includes. unfold switched.
  destruct (includes Key.eqb l k); [reflexivity|].
  rewrite orb_false_l.
  destruct (includes Key.eqb defaultDisplayForms k); reflexivity.
Qed.

Lemma switchValidators_signal l this :
  _currentCustomerType (_switchValidators l this) = _currentCustomerType this.
Proof.
  rewrite switchValidators_as_touch. now rewrite !forEach_touch_signal.
Qed.

Lemma switchValidators_settled l this : settled (_switchValidators l this).
Proof.
  rewrite switchValidators_as_touch.
  destruct (some_loop_runs l) as [N|N].
  - apply forEach_touch_settled. left. apply forEach_touch_settled. now right.
  - apply forEach_touch_settled. now right.
Qed.

Lemma switched_idem l k c : switched l k (switched l k c) = switched l k c.
Proof.
  unfold switched. destruct (includes Key.eqb l k); [reflexivity|].
  destruct (includes Key.eqb defaultDisplayForms k); reflexivity.
Qed.

Lemma switched_value l k c : value (switched l k c) = value c.
Proof.
  unfold switched. destruct (includes Key.eqb l k); [reflexivity|].
  destruct (includes Key.eqb defaultDisplayForms k); reflexivity.
Qed.

(* ------------------------------------------------------------------------- *)
(** ** The active-field computation *)

(** C1, as the specification states it, fails at [individual]: [customerType]
    is in the union of [defaultDisplayForms] with the category's own forms, and
    it is not in the list that [_getDynamicDisplayForms] (or the computed
    signal of the displayed component) returns. *)
Lemma getDynamicDisplayForms_not_union :
  In Key.customerType (defaultDisplayForms ++ dynamicDisplayFormsPattern individual)
  /\ ~ In Key.customerType (_getDynamicDisplayForms individual)
  /\ ~ In Key.customerType (dynamicDisplayForms displayed)
  /\ ~ (forall f,
          In f (_getDynamicDisplayForms individual)
          <-> In f (defaultDisplayForms ++ dynamicDisplayFormsPattern individual)).
Proof.
  assert (N : ~ In Key.customerType [Key.name; Key.nameKana]).
  { simpl. intros [E|[E|[]]]; discriminate E. }
  repeat split.
  - simpl. now left.
  - exact N.
  - exact N.
  - intro E. apply N, (E Key.customerType). simpl. now left.
Qed.

(** C1 (amended): for every customer type [c], [_getDynamicDisplayForms c],
    and the computed signal [dynamicDisplayForms] when the signal holds [c],
    return exactly the category's own forms [dynamicDisplayFormsPattern c];
    no default form ([customerType]) is in the returned list. *)
Theorem getDynamicDisplayForms_exact (c : CustomerType) :
  _getDynamicDisplayForms c = dynamicDisplayFormsPattern c
  /\ (forall form, dynamicDisplayForms (mkComponent (Some c) form)
                   = dynamicDisplayFormsPattern c)
  /\ (forall f, In f (_getDynamicDisplayForms c)
                <-> In f (dynamicDisplayFormsPattern c))
  /\ (forall f, In f defaultDisplayForms -> ~ In f (_getDynamicDisplayForms c)).
Proof.
  repeat split; try tauto.
  intros f Hd Hf. destruct c, f; simpl in Hd, Hf; intuition discriminate.
Qed.

(** C6: while the signal [_currentCustomerType] holds [null], the computed
    signal [dynamicDisplayForms] yields what it yields for [individual]. *)
Theorem dynamicDisplayForms_null_is_individual (form : FormGroup.t) :
  dynamicDisplayForms (mkComponent None form) = _getDynamicDisplayForms individual
  /\ dynamicDisplayForms (mkComponent None form)
     = dynamicDisplayForms (mkComponent (Some individual) form)
  /\ dynamicDisplayForms new_SwitchFormComponent = [Key.name; Key.nameKana].
Proof. repeat split. Qed.

(* ------------------------------------------------------------------------- *)
(** ** What [_switchValidators] does to the controls *)

(** C2: after [_switchValidators l], every form in [l] carries the validators
    of [formValidationManager] and errors and status computed from them on its
    (unchanged) value; every form neither in [l] nor in [defaultDisplayForms]
    carries no validator, no error and the status [VALID]. *)
Theorem switchValidators_sets_and_clears
    (l : list Key.t) (this : SwitchFormComponent) (f : Key.t) :
  let c := control_of (_switchValidators l this) f in
  (In f l ->
     validators c = formValidationManager f
     /\ errors c = _runValidator c
     /\ status c = _calculateStatus (_runValidator c)
     /\ c = applied f (control_of this f))
  /\ (~ In f l -> ~ In f defaultDisplayForms ->
     validators c = []
     /\ errors c = None
     /\ status c = VALID
     /\ c = cleared f (control_of this f)).
Proof.
  cbv zeta. rewrite switchValidators_control. unfold switched. split.
  - intro Hf. apply includes_In in Hf. rewrite Hf. repeat split.
  - intros Hf Hd. apply includes_not_In in Hf, Hd. rewrite Hf, Hd. repeat split.
Qed.

Lemma switchValidators_sets_and_clears_witness :
  let this := _switchValidators [Key.name; Key.nameKana] new_SwitchFormComponent in
  (validators (control_of this Key.name) = [Validators.required]
   /\ status (control_of this Key.name) = INVALID)
  /\ (validators (control_of this Key.companyName) = []
      /\ status (control_of this Key.companyName) = VALID).
Proof.
  cbv zeta. split.
  - destruct (switchValidators_sets_and_clears
                [Key.name; Key.nameKana] new_SwitchFormComponent Key.name) as [A _].
    destruct A as (A1 & _ & A3 & _); [simpl; auto|].
    split; [exact A1 | exact A3].
  - destruct (switchValidators_sets_and_clears
                [Key.name; Key.nameKana] new_SwitchFormComponent Key.companyName) as [_ B].
    destruct B as (B1 & _ & B3 & _).
    + simpl. intros [E|[E|[]]]; discriminate E.
    + simpl. intros [E|[]]; discriminate E.
    + split; [exact B1 | exact B3].
Defined.

(** C3: [_switchValidators l] is idempotent: for every list [l] and every
    component state, running it twice leaves the validators, errors and status
    of every control, the group status and the signal as one run does. *)
Theorem switchValidators_idempotent (l : list Key.t) (this : SwitchFormComponent) :
  _switchValidators l (_switchValidators l this) = _switchValidators l this.
Proof.
  apply component_ext.
  - now rewrite !switchValidators_signal.
  - intro k. rewrite !switchValidators_control. apply switched_idem.
  - apply switchValidators_settled.
  - apply switchValidators_settled.
Qed.

(** C8: [_switchValidators] changes no control's value. *)
Theorem switchValidators_keeps_values
    (l : list Key.t) (this : SwitchFormComponent) (k : Key.t) :
  value (control_of (_switchValidators l this) k) = value (control_of this k).
Proof. rewrite switchValidators_control. apply switched_value. Qed.

(** C10: a default form that is not in the list passed to [_switchValidators]
    is left exactly as it was: its validators are neither set nor cleared, and
    its errors and status are not recomputed. *)
Theorem switchValidators_skips_default
    (l : list Key.t) (this : SwitchFormComponent) (f : Key.t) :
  In f defaultDisplayForms -> ~ In f l ->
  control_of (_switchValidators l this) f = control_of this f
  /\ ~ In f (hiddenForms formValidationManager_keys l).
Proof.
  intros Hd Hf. split.
  - rewrite switchValidators_control. unfold switched.
    apply includes_not_In in Hf. apply includes_In in Hd. now rewrite Hf, Hd.
  - rewrite hiddenForms_In. tauto.
Qed.

Lemma switchValidators_skips_default_witness :
  customerType
    (FormGroup.controls
       (switchForm (_switchValidators [Key.companyName; Key.companyNameKana]
                      stale_component)))
  = {| value := corporate; validators := [Validators.required];
       errors := Some [("required", true)]; status := INVALID |}.
Proof.
  destruct (switchValidators_skips_default
              [Key.companyName; Key.companyNameKana] stale_component Key.customerType)
    as [A _].
  - simpl; auto.
  - simpl. intros [E|[E|[]]]; discriminate E.
  - exact A.
Defined.

(* ------------------------------------------------------------------------- *)
(** ** A form that is both default and displayed *)

Lemma hiddenFormsWith_In (defaults : list Key.t) l k :
  In k (hiddenFormsWith defaults formValidationManager_keys l)
  <-> ~ In k l /\ ~ In k defaults.
Proof.
  unfold hiddenFormsWith. rewrite filter_In, negb_true_iff, orb_false_iff.
  rewrite !includes_not_In. pose proof (formValidationManager_keys_all k). tauto.
Qed.

Lemma hiddenFormsWith_includes (defaults : list Key.t) l k :
  includes Key.eqb (hiddenFormsWith defaults formValidationManager_keys l) k
  = negb (includes Key.eqb l k || includes Key.eqb defaults k).
Proof.
  destruct (includes Key.eqb (hiddenFormsWith defaults formValidationManager_keys l) k)
    eqn:E.
  - apply includes_In, hiddenFormsWith_In in E. destruct E as [E1 E2].
    apply includes_not_In in E1, E2. now rewrite E1, E2.
  - apply includes_not_In in E. rewrite hiddenFormsWith_In in E.
    destruct (includes Key.eqb l k) eqn:E1; [reflexivity|].
    destruct (includes Key.eqb defaults k) eqn:E2; [reflexivity|].
    apply includes_not_In in E1, E2. tauto.
Qed.

Section TablesFacts.

Variable defaults : list Key.t.
Variable rules : Key.t -> list ValidatorFn.
Variable subscribed : bool.

Lemma emit_control form this k :
  control_of (emit_valueChanges subscribed form this) k = control_of this k.
Proof. unfold emit_valueChanges. destruct subscribed, form; reflexivity. Qed.

Lemma emit_settled form this :
  settled this -> settled (emit_valueChanges subscribed form this).
Proof. unfold emit_valueChanges. destruct subscribed, form; intro S; exact S. Qed.


Lemma appliedWith_idem form c :
  appliedWith rules form (appliedWith rules form c) = appliedWith rules form c.
Proof. reflexivity. Qed.

Lemma loop1_body_with form this :
  emit_valueChanges subscribed form
    (on_switchForm (control_updateValueAndValidity form)
       (on_switchForm (control_setValidators form (rules form))
          (on_switchForm (control_clearValidators form) this)))
  = touch_emit subscribed (appliedWith rules) form this.
Proof.
  unfold touch_emit. f_equal.
  destruct this as [s [g t]]. unfold touch, on_switchForm, control_updateValueAndValidity,
    control_setValidators, control_clearValidators, appliedWith. simpl.
  rewrite !control_set_control_same, !set_control_twice. reflexivity.
Qed.

Lemma loop2_body_with form this :
  emit_valueChanges subscribed form
    (on_switchForm (control_updateValueAndValidity form)
       (on_switchForm (control_clearValidators form) this))
  = touch_emit subscribed cleared form this.
Proof. unfold touch_emit. f_equal. apply loop2_body. Qed.

Lemma switchValidatorsWith_as_touch l this :
  switchValidatorsWith defaults rules subscribed l this
  = forEach (hiddenFormsWith defaults formValidationManager_keys l)
      (touch_emit subscribed cleared)
      (forEach l (touch_emit subscribed (appliedWith rules)) this).
Proof.
  unfold switchValidatorsWith, forEach. cbv zeta.
  assert (E1 : forall xs s,
             fold_left (fun acc x =>
               emit_valueChanges subscribed x
                 (on_switchForm (control_updateValueAndValidity x)
                    (on_switchForm (control_setValidators x (rules x))
                       (on_switchForm (control_clearValidators x) acc)))) xs s
             = fold_left (fun acc x => touch_emit subscribed (appliedWith rules) x acc) xs s).
  { induction xs as [|x xs IH]; intro s; simpl; [reflexivity|].
    rewrite loop1_body_with. apply IH. }
  assert (E2 : forall xs s,
             fold_left (fun acc x =>
               emit_valueChanges subscribed x
                 (on_switchForm (control_updateValueAndValidity x)
                    (on_switchForm (control_clearValidators x) acc))) xs s
             = fold_left (fun acc x => touch_emit subscribed cleared x acc) xs s).
  { induction xs as [|x xs IH]; intro s; simpl; [reflexivity|].
    rewrite loop2_body_with. apply IH. }
  rewrite E1, E2. reflexivity.
Qed.

Section TouchEmit.

Variable F : forall k, FormControl (ControlValue k) -> FormControl (ControlValue k).
Hypothesis F_idem : forall k c, F k (F k c) = F k c.
Hypothesis F_value : forall k c, value (F k c) = value c.

Lemma forEach_touch_emit_control l : forall this k,
  control_of (forEach l (touch_emit subscribed F) this) k
  = if includes Key.eqb l k then F k (control_of this k) else control_of this k.
Proof.
  induction l as [|a l IH]; intros this k; [reflexivity|].
  change (forEach (a :: l) (touch_emit subscribed F) this)
    with (forEach l (touch_emit subscribed F) (touch_emit subscribed F a this)).
  rewrite IH. unfold includes, touch_emit. simpl. rewrite emit_control.
  destruct (Key_eq_dec a k) as [->|N].
  - rewrite Key_eqb_refl, touch_control_same. simpl.
    destruct (existsb (Key.eqb k) l); [apply F_idem | reflexivity].
  - assert (Key.eqb k a = false) as -> by (apply Key_eqb_neq; congruence).
    rewrite touch_control_other by exact N. reflexivity.
Qed.

Lemma forEach_touch_emit_settled l : forall this,
  settled this \/ l <> [] -> settled (forEach l (touch_emit subscribed F) this).
Proof.
  induction l as [|a l IH]; intros this [S|N].
  - exact S.
  - contradiction N; reflexivity.
  - change (forEach (a :: l) (touch_emit subscribed F) this)
      with (forEach l (touch_emit subscribed F) (touch_emit subscribed F a this)).
    apply IH. left. apply emit_settled, touch_settled.
  - change (forEach (a :: l) (touch_emit subscribed F) this)
      with (forEach l (touch_emit subscribed F) (touch_emit subscribed F a this)).
    apply IH. left. apply emit_settled, touch_settled.
Qed.



End TouchEmit.



(** [switchValidatorsWith] in closed form: the controls. *)
Lemma switchValidatorsWith_control l this k :
  control_of (switchValidatorsWith defaults rules subscribed l this) k
  = if includes Key.eqb l k then appliedWith rules k (control_of this k)
    else if includes Key.eqb defaults k then control_of this k
    else cleared k (control_of this k).
Proof.
  rewrite switchValidatorsWith_as_touch.
  rewrite (forEach_touch_emit_control cleared cleared_idem).
  rewrite (forEach_touch_emit_control (appliedWith rules) appliedWith_idem).
  rewrite hiddenFormsWith_includes.
  destruct (includes Key.eqb l k); [reflexivity|].
  rewrite orb_false_l.
  destruct (includes Key.eqb defaults k); reflexivity.
Qed.



End TablesFacts.

(** With the component's own tables and no subscriber, the method with
    parameters is [_switchValidators]. *)
Lemma switchValidatorsWith_unsubscribed l this :
  switchValidatorsWith defaultDisplayForms formValidationManager false l this
  = _switchValidators l this.
Proof. reflexivity. Qed.

(** With the subscriber, the form group is still the one that
    [_switchValidators] computes; only the signal can differ. *)
Lemma switchValidatorsWith_form subscribed l this :
  switchForm (switchValidatorsWith defaultDisplayForms formValidationManager subscribed l this)
  = switchForm (_switchValidators l this).
Proof.
  assert (C : forall k,
             control_of (switchValidatorsWith defaultDisplayForms formValidationManager
                           subscribed l this) k
             = control_of (_switchValidators l this) k).
  { intro k. rewrite switchValidatorsWith_control, switchValidators_control.
    reflexivity. }
  assert (S1 : settled (switchValidatorsWith defaultDisplayForms formValidationManager
                          subscribed l this)).
  { rewrite switchValidatorsWith_as_touch.
    destruct (some_loop_runs l) as [N|N].
    - apply forEach_touch_emit_settled. left. apply forEach_touch_emit_settled. now right.
    - apply forEach_touch_emit_settled. now right. }
  pose proof (switchValidators_settled l this) as S2.
  unfold settled, control_of in *.
  destruct (switchForm (switchValidatorsWith defaultDisplayForms formValidationManager
                          subscribed l this)) as [g1 t1].
  destruct (switchForm (_switchValidators l this)) as [g2 t2].
  simpl in *. apply SwitchForm_ext in C. subst. reflexivity.
Qed.




(* ------------------------------------------------------------------------- *)
(** ** Switching between the two customer types *)

(** C4: from any state, let [i] be the state after [_switchValidators] for
    [individual], [c] the state after a following switch to [corporate], and
    [i'] the state after switching back.  In [c] the controls [name] and
    [nameKana] have no validator, no error and are valid, and [companyName]
    and [companyNameKana] carry [Validators.required]; in [i'] it is the other
    way round, and [i'] is the state [i]: every control has the validators it
    had before the first switch. *)
Theorem switch_individual_corporate_round_trip (this : SwitchFormComponent) :
  let i := _switchValidators (_getDynamicDisplayForms individual) this in
  let c := _switchValidators (_getDynamicDisplayForms corporate) i in
  let i' := _switchValidators (_getDynamicDisplayForms individual) c in
  (control_of c Key.name = cleared Key.name (control_of i Key.name)
   /\ validators (control_of c Key.name) = []
   /\ errors (control_of c Key.name) = None
   /\ status (control_of c Key.name) = VALID
   /\ validators (control_of c Key.nameKana) = []
   /\ errors (control_of c Key.nameKana) = None
   /\ status (control_of c Key.nameKana) = VALID
   /\ validators (control_of c Key.companyName) = [Validators.required]
   /\ validators (control_of c Key.companyNameKana) = [Validators.required])
  /\ (validators (control_of i' Key.name) = [Validators.required]
      /\ validators (control_of i' Key.nameKana) = [Validators.required]
      /\ validators (control_of i' Key.companyName) = []
      /\ validators (control_of i' Key.companyNameKana) = [])
  /\ (forall k, validators (control_of i' k) = validators (control_of i k))
  /\ i' = i.
Proof.
  cbv zeta.
  assert (E : _switchValidators (_getDynamicDisplayForms individual)
                (_switchValidators (_getDynamicDisplayForms corporate)
                   (_switchValidators (_getDynamicDisplayForms individual) this))
              = _switchValidators (_getDynamicDisplayForms individual) this).
  { apply component_ext.
    - now rewrite !switchValidators_signal.
    - intro k. rewrite !switchValidators_control. destruct k; reflexivity.
    - apply switchValidators_settled.
    - apply switchValidators_settled. }
  split; [|split; [|split]].
  - rewrite !switchValidators_control. repeat split.
  - rewrite E, !switchValidators_control. repeat split.
  - intro k. now rewrite E.
  - exact E.
Qed.

(** The scenario of the displayed component: with every text field empty,
    [name] is invalid and [companyName] valid under [individual]; after the
    user selects [corporate] it is the reverse, the values are as they were,
    and selecting [individual] again gives the first state back. *)
Example select_corporate_then_individual :
  let c := selectCustomerType corporate displayed in
  status (control_of displayed Key.name) = INVALID
  /\ status (control_of displayed Key.companyName) = VALID
  /\ FormGroup.status (switchForm displayed) = INVALID
  /\ _currentCustomerType c = Some corporate
  /\ status (control_of c Key.name) = VALID
  /\ errors (control_of c Key.name) = None
  /\ status (control_of c Key.companyName) = INVALID
  /\ errors (control_of c Key.companyName) = Some [("required", true)]
  /\ selectCustomerType individual c = displayed.
Proof. cbv zeta. repeat split. Qed.

(* ------------------------------------------------------------------------- *)
(** ** The radio control is never validated *)

Lemma switchValidators_customerType_unvalidated l this :
  customerType_unvalidated this ->
  customerType_unvalidated (_switchValidators l this).
Proof.
  unfold customerType_unvalidated. rewrite switchValidators_control. unfold switched.
  intros (V & E & S).
  destruct (includes Key.eqb l Key.customerType); simpl; auto.
Qed.

Lemma setValue_customerType_unvalidated form v this :
  customerType_unvalidated this ->
  customerType_unvalidated (on_switchForm (control_setValue form v) this).
Proof.
  unfold customerType_unvalidated, control_of. destruct this as [s [g t]].
  destruct form; simpl; intros (V & E & S); try (repeat split; assumption).
  unfold revalidate, _runValidator. simpl. rewrite V. repeat split.
Qed.

(** C5: in every state the component can reach, by any sequence of values set
    on controls, customer-type selections and runs of the effect, under either
    customer type, the control [customerType] has an empty validator list (and
    so neither an error nor the status [INVALID]). *)
Theorem customerType_never_validated (this : SwitchFormComponent) :
  reachable this ->
  validators (customerType (FormGroup.controls (switchForm this))) = []
  /\ errors (customerType (FormGroup.controls (switchForm this))) = None
  /\ status (customerType (FormGroup.controls (switchForm this))) = VALID.
Proof.
  intro R. change (customerType_unvalidated this).
  induction R as [|this R IH|this form v R IH|this R IH|this c R IH].
  - repeat split.
  - exact IH.
  - now apply setValue_customerType_unvalidated.
  - now apply switchValidators_customerType_unvalidated.
  - unfold selectCustomerType.
    pose proof (setValue_customerType_unvalidated Key.customerType c this IH) as H1.
    match goal with |- context [if ?b then _ else _] => destruct b end.
    + exact H1.
    + apply switchValidators_customerType_unvalidated. exact H1.
Qed.

Lemma customerType_never_validated_witness :
  validators
    (customerType
       (FormGroup.controls
          (switchForm
             (selectCustomerType individual
                (on_switchForm (control_setValue Key.companyName "ACME")
                   (selectCustomerType corporate displayed)))))) = [].
Proof.
  refine (proj1 (customerType_never_validated _ _)).
  apply reach_select, reach_setValue, reach_select.
  unfold displayed. apply reach_effect, reach_ngOnInit, reach_new.
Defined.

(* ------------------------------------------------------------------------- *)
(** ** [_switchValidators] never throws *)

Section Objects.

Context {V : Type}.

Lemma obj_get_defined (o : Obj string V) (k : string) :
  In k (Object_keys o) -> exists v, obj_get String.eqb o k = Some v.
Proof.
  induction o as [|[k' v'] o IH]; simpl; [tauto|].
  intros [E|Hk].
  - subst k'. rewrite String.eqb_refl. eauto.
  - destruct (String.eqb k k'); eauto.
Qed.

Lemma obj_get_undefined (o : Obj string V) (k : string) :
  ~ In k (Object_keys o) -> obj_get String.eqb o k = None.
Proof.
  induction o as [|[k' v'] o IH]; simpl; [reflexivity|].
  intro N. destruct (String.eqb_spec k k') as [->|_]; [tauto|].
  apply IH. tauto.
Qed.

(** Assigning to a property never removes a key. *)
Lemma obj_set_keeps_keys (o : Obj string V) (k k' : string) (v : V) :
  In k' (Object_keys o) -> In k' (Object_keys (obj_set String.eqb k v o)).
Proof.
  induction o as [|[k0 v0] o IH]; simpl; [tauto|].
  destruct (String.eqb_spec k k0) as [->|N]; simpl; tauto.
Qed.

End Objects.

Lemma Runtime_call_normal form m fg :
  In form (Object_keys Runtime.formValidationManager) ->
  Runtime.has_all_controls fg ->
  exists fg', Runtime.call form m fg = Runtime.Normal fg'
              /\ Runtime.has_all_controls fg'.
Proof.
  intros Hf Hfg. unfold Runtime.call.
  destruct (obj_get_defined (Runtime.controls fg) form (Hfg form Hf)) as [c ->].
  eexists. split; [reflexivity|].
  intros k Hk. simpl. apply obj_set_keeps_keys, Hfg, Hk.
Qed.

Lemma Runtime_update_normal form fg :
  In form (Object_keys Runtime.formValidationManager) ->
  Runtime.has_all_controls fg ->
  exists fg', Runtime.call_updateValueAndValidity form fg = Runtime.Normal fg'
              /\ Runtime.has_all_controls fg'.
Proof.
  intros Hf Hfg. unfold Runtime.call_updateValueAndValidity.
  destruct (obj_get_defined (Runtime.controls fg) form (Hfg form Hf)) as [c ->].
  eexists. split; [reflexivity|].
  intros k Hk. simpl. apply obj_set_keeps_keys, Hfg, Hk.
Qed.

(** A loop whose body completes normally on every key of the rule table
    completes normally on every list of such keys. *)
Lemma Runtime_forEach_normal (body : string -> Runtime.Group -> Runtime.Completion Runtime.Group) :
  (forall form fg,
      In form (Object_keys Runtime.formValidationManager) ->
      Runtime.has_all_controls fg ->
      exists fg', body form fg = Runtime.Normal fg' /\ Runtime.has_all_controls fg') ->
  forall l fg,
    Forall (fun form => In form (Object_keys Runtime.formValidationManager)) l ->
    Runtime.has_all_controls fg ->
    exists fg', Runtime.forEach l body fg = Runtime.Normal fg'
                /\ Runtime.has_all_controls fg'.
Proof.
  intros Hbody l. induction l as [|a l IH]; intros fg Hl Hfg.
  - exists fg. split; [reflexivity | exact Hfg].
  - inversion Hl as [|? ? Ha Hl']; subst.
    destruct (Hbody a fg Ha Hfg) as (fg1 & E1 & H1).
    simpl. rewrite E1. simpl. apply IH; assumption.
Qed.

(** C7: for every list of forms drawn from the keys of
    [formValidationManager], and every form group that has a control for each
    of these keys, the run-time [_switchValidators] completes normally (no
    [TypeError]): [formValidationManager[form]] is defined for every form of
    the list, [switchForm.controls[form]] is defined for every form either
    loop visits, and the resulting group still has all its controls.  The
    result is a function of the list and the group. *)
Theorem switchValidators_total (l : list string) (fg : Runtime.Group) :
  Forall (fun form => In form (Object_keys Runtime.formValidationManager)) l ->
  Runtime.has_all_controls fg ->
  (forall form, In form l ->
     exists vs, obj_get String.eqb Runtime.formValidationManager form = Some vs)
  /\ (forall form,
        In form l
        \/ In form (Runtime.hiddenForms (Object_keys Runtime.formValidationManager) l) ->
        exists c, obj_get String.eqb (Runtime.controls fg) form = Some c)
  /\ (exists fg', Runtime._switchValidators l fg = Runtime.Normal fg'
                  /\ Runtime.has_all_controls fg').
Proof.
  intros Hl Hfg. rewrite Forall_forall in Hl. split; [|split].
  - intros form Hf. apply obj_get_defined, Hl, Hf.
  - intros form [Hf|Hf]; apply obj_get_defined, Hfg.
    + apply Hl, Hf.
    + unfold Runtime.hiddenForms in Hf. apply filter_In in Hf. apply Hf.
  - unfold Runtime._switchValidators.
    destruct (Runtime_forEach_normal
                (fun form fg =>
                   Runtime.bind (Runtime.call form clearValidators fg) (fun fg =>
                   Runtime.bind
                     (Runtime.call form
                        (Runtime.setValidators_opt
                           (obj_get String.eqb Runtime.formValidationManager form)) fg)
                     (fun fg => Runtime.call_updateValueAndValidity form fg))))
      with (l := l) (fg := fg) as (fg1 & E1 & H1).
    + intros form g Hf Hg.
      destruct (Runtime_call_normal form clearValidators g Hf Hg) as (g1 & -> & Hg1).
      cbn [Runtime.bind].
      destruct (Runtime_call_normal form
                  (Runtime.setValidators_opt
                     (obj_get String.eqb Runtime.formValidationManager form))
                  g1 Hf Hg1) as (g2 & -> & Hg2).
      cbn [Runtime.bind]. apply Runtime_update_normal; assumption.
    + apply Forall_forall, Hl.
    + exact Hfg.
    + rewrite E1. cbn [Runtime.bind].
      apply Runtime_forEach_normal.
      * intros form g Hf Hg.
        destruct (Runtime_call_normal form clearValidators g Hf Hg) as (g1 & -> & Hg1).
        cbn [Runtime.bind]. apply Runtime_update_normal; assumption.
      * apply Forall_forall. intros form Hf.
        unfold Runtime.hiddenForms in Hf. apply filter_In in Hf. apply Hf.
      * exact H1.
Qed.

Lemma switchValidators_total_witness :
  exists fg',
    Runtime._switchValidators ["name"; "nameKana"]
      (Runtime.erase (switchForm new_SwitchFormComponent))
    = Runtime.Normal fg'.
Proof.
  destruct (switchValidators_total ["name"; "nameKana"]
              (Runtime.erase (switchForm new_SwitchFormComponent)))
    as (_ & _ & fg' & E & _).
  - apply Forall_forall. intros form [<-|[<-|[]]]; simpl; auto 10.
  - intros form Hf. exact Hf.
  - exists fg'. exact E.
Defined.

(** The run-time method does throw outside that domain: a form that names no
    control makes the first method call fail. *)
Example switchValidators_unknown_form_throws :
  Runtime._switchValidators ["address"]
    (Runtime.erase (switchForm new_SwitchFormComponent))
  = Runtime.Throw_TypeError.
Proof. reflexivity. Qed.

(* ------------------------------------------------------------------------- *)
(** ** The typed method describes the run-time method *)

(** The typed tables are the run-time objects, key by key. *)
Lemma Runtime_formValidationManager_lookup (k : Key.t) :
  obj_get String.eqb Runtime.formValidationManager (Key.to_string k)
  = Some (formValidationManager k).
Proof. destruct k; reflexivity. Qed.

Lemma Runtime_formValidationManager_keys :
  Object_keys Runtime.formValidationManager
  = map Key.to_string formValidationManager_keys.
Proof. reflexivity. Qed.

Lemma to_string_eqb (a b : Key.t) :
  String.eqb (Key.to_string a) (Key.to_string b) = Key.eqb a b.
Proof. destruct a, b; reflexivity. Qed.

Lemma Runtime_includes_to_string (l : list Key.t) (k : Key.t) :
  includes String.eqb (map Key.to_string l) (Key.to_string k) = includes Key.eqb l k.
Proof.
  unfold includes. induction l as [|a l IH]; simpl; [reflexivity|].
  now rewrite to_string_eqb, IH.
Qed.

Lemma Runtime_hiddenForms_to_string (l : list Key.t) :
  Runtime.hiddenForms (Object_keys Runtime.formValidationManager) (map Key.to_string l)
  = map Key.to_string (hiddenForms formValidationManager_keys l).
Proof.
  unfold Runtime.hiddenForms, hiddenForms.
  change (Object_keys Runtime.formValidationManager)
    with (map Key.to_string formValidationManager_keys).
  induction formValidationManager_keys as [|k ks IH]; [reflexivity|].
  cbn [map filter]. rewrite IH, Runtime_includes_to_string.
  change Runtime.defaultDisplayForms with (map Key.to_string defaultDisplayForms).
  rewrite Runtime_includes_to_string.
  destruct (negb (includes Key.eqb l k || includes Key.eqb defaultDisplayForms k));
    reflexivity.
Qed.

(** One pass of loop [1], at run time and typed. *)
Lemma Runtime_loop1_body (form : Key.t) (this : SwitchFormComponent) :
  Runtime.bind
    (Runtime.call (Key.to_string form) clearValidators (Runtime.erase (switchForm this)))
    (fun fg =>
       Runtime.bind
         (Runtime.call (Key.to_string form)
            (Runtime.setValidators_opt
               (obj_get String.eqb Runtime.formValidationManager (Key.to_string form)))
            fg)
         (fun fg => Runtime.call_updateValueAndValidity (Key.to_string form) fg))
  = Runtime.Normal (Runtime.erase (switchForm (touch applied form this))).
Proof. destruct this as [s [[c1 c2 c3 c4 c5] t]]. destruct form; reflexivity. Qed.

(** One pass of loop [2], at run time and typed. *)
Lemma Runtime_loop2_body (form : Key.t) (this : SwitchFormComponent) :
  Runtime.bind
    (Runtime.call (Key.to_string form) clearValidators (Runtime.erase (switchForm this)))
    (fun fg => Runtime.call_updateValueAndValidity (Key.to_string form) fg)
  = Runtime.Normal (Runtime.erase (switchForm (touch cleared form this))).
Proof. destruct this as [s [[c1 c2 c3 c4 c5] t]]. destruct form; reflexivity. Qed.

Lemma Runtime_forEach_simulates
    (body : string -> Runtime.Group -> Runtime.Completion Runtime.Group)
    (F : forall k, FormControl (ControlValue k) -> FormControl (ControlValue k)) :
  (forall form this,
      body (Key.to_string form) (Runtime.erase (switchForm this))
      = Runtime.Normal (Runtime.erase (switchForm (touch F form this)))) ->
  forall l this,
    Runtime.forEach (map Key.to_string l) body (Runtime.erase (switchForm this))
    = Runtime.Normal (Runtime.erase (switchForm (forEach l (touch F) this))).
Proof.
  intros Hbody l. induction l as [|a l IH]; intro this; [reflexivity|].
  simpl. rewrite Hbody. cbn [Runtime.bind]. apply IH.
Qed.

(** On the keys of [SwitchForm] and a group built from a typed form, the
    run-time method completes normally with the image of what the typed
    [_switchValidators] computes. *)
Theorem Runtime_switchValidators_refines (l : list Key.t) (this : SwitchFormComponent) :
  Runtime._switchValidators (map Key.to_string l) (Runtime.erase (switchForm this))
  = Runtime.Normal (Runtime.erase (switchForm (_switchValidators l this))).
Proof.
  unfold Runtime._switchValidators. cbv zeta.
  rewrite (Runtime_forEach_simulates _ applied Runtime_loop1_body).
  cbn [Runtime.bind]. rewrite Runtime_hiddenForms_to_string.
  rewrite (Runtime_forEach_simulates _ cleared Runtime_loop2_body).
  now rewrite switchValidators_as_touch.
Qed.

(* ------------------------------------------------------------------------- *)
(** ** More on [_switchValidators]: the list as a set, and history *)

Lemma applied_value_only k (c1 c2 : FormControl (ControlValue k)) :
  value c1 = value c2 -> applied k c1 = applied k c2.
Proof.
  intro E. unfold applied, revalidate, _runValidator. simpl. now rewrite E.
Qed.

Lemma cleared_value_only k (c1 c2 : FormControl (ControlValue k)) :
  value c1 = value c2 -> cleared k c1 = cleared k c2.
Proof.
  intro E. unfold cleared, revalidate, _runValidator. simpl. now rewrite E.
Qed.

(** X1: [_switchValidators] treats its list as a set: two lists with the same
    members, in any order and with any repetitions, lead to the same state. *)
Theorem switchValidators_list_as_set
    (l l' : list Key.t) (this : SwitchFormComponent) :
  (forall k, In k l <-> In k l') ->
  _switchValidators l this = _switchValidators l' this.
Proof.
  intro E. apply component_ext.
  - now rewrite !switchValidators_signal.
  - intro k. rewrite !switchValidators_control. unfold switched.
    now rewrite (includes_same_members l l' k E).
  - apply switchValidators_settled.
  - apply switchValidators_settled.
Qed.

Lemma switchValidators_list_as_set_witness :
  _switchValidators [Key.name; Key.nameKana] stale_component
  = _switchValidators [Key.nameKana; Key.name; Key.nameKana] stale_component.
Proof.
  apply switchValidators_list_as_set.
  intro k. simpl. tauto.
Defined.

(** X2: when the first list holds no default form, a second call of
    [_switchValidators] overrides the first: the state after both calls is the
    state after the second call alone. *)
Theorem switchValidators_last_call_wins
    (l1 l2 : list Key.t) (this : SwitchFormComponent) :
  (forall k, In k defaultDisplayForms -> ~ In k l1) ->
  _switchValidators l2 (_switchValidators l1 this) = _switchValidators l2 this.
Proof.
  intro D. apply component_ext.
  - now rewrite !switchValidators_signal.
  - intro k. rewrite !switchValidators_control. unfold switched at 1 3.
    destruct (includes Key.eqb l2 k).
    + apply applied_value_only, switched_value.
    + destruct (includes Key.eqb defaultDisplayForms k) eqn:Ed.
      * unfold switched. rewrite Ed.
        apply includes_In in Ed. apply D, includes_not_In in Ed. now rewrite Ed.
      * apply cleared_value_only, switched_value.
  - apply switchValidators_settled.
  - apply switchValidators_settled.
Qed.

Lemma switchValidators_last_call_wins_witness :
  _switchValidators [Key.companyName]
    (_switchValidators [Key.name; Key.companyNameKana] stale_component)
  = _switchValidators [Key.companyName] stale_component.
Proof.
  apply switchValidators_last_call_wins.
  intros k Hd Hk. simpl in Hd, Hk.
  destruct Hd as [<-|[]]. destruct Hk as [E|[E|[]]]; discriminate E.
Defined.

(** Without that condition the first call shows through: a default form that
    only the first list names stays re-validated. *)
Example switchValidators_first_call_shows :
  _switchValidators [] (_switchValidators [Key.customerType] stale_component)
  <> _switchValidators [] stale_component.
Proof. intro E. apply (f_equal (fun t => status (control_of t Key.customerType))) in E.
  discriminate E. Qed.

(* ------------------------------------------------------------------------- *)
(** ** The displayed component is always steady *)

Lemma same_forms_eq (a b : list Key.t) : same_forms a b = true <-> a = b.
Proof.
  revert b. induction a as [|x a IH]; destruct b as [|y b]; simpl;
    try (split; intro E; (reflexivity || discriminate E)).
  rewrite andb_true_iff, Key_eqb_eq, IH. split.
  - intros [-> ->]. reflexivity.
  - intro E. injection E. auto.
Qed.

Lemma effect_settled this : _switchValidatorsEffect this = this -> settled this.
Proof. intro E. rewrite <- E. apply switchValidators_settled. Qed.

Lemma effect_fixed_controls this k :
  _switchValidatorsEffect this = this ->
  switched (dynamicDisplayForms this) k (control_of this k) = control_of this k.
Proof.
  intro E. rewrite <- switchValidators_control.
  unfold _switchValidatorsEffect in E. now rewrite E.
Qed.

Lemma fixed_by_controls this :
  settled this ->
  (forall k, switched (dynamicDisplayForms this) k (control_of this k)
             = control_of this k) ->
  _switchValidatorsEffect this = this.
Proof.
  intros S C. apply component_ext.
  - apply switchValidators_signal.
  - intro k. unfold _switchValidatorsEffect. rewrite switchValidators_control. apply C.
  - apply switchValidators_settled.
  - exact S.
Qed.

Lemma effect_idem this :
  _switchValidatorsEffect (_switchValidatorsEffect this) = _switchValidatorsEffect this.
Proof.
  apply fixed_by_controls.
  - apply switchValidators_settled.
  - intro k. unfold _switchValidatorsEffect at 1 2 3.
    unfold dynamicDisplayForms at 1. rewrite switchValidators_signal.
    fold (dynamicDisplayForms this).
    rewrite switchValidators_control. apply switched_idem.
Qed.

(** A default form is the radio. *)
Lemma default_is_customerType k :
  includes Key.eqb defaultDisplayForms k = true -> k = Key.customerType.
Proof. destruct k; simpl; intro E; (reflexivity || discriminate E). Qed.

Lemma pattern_excludes_customerType c :
  includes Key.eqb (dynamicDisplayFormsPattern c) Key.customerType = false.
Proof. destruct c; reflexivity. Qed.

(** A control that the effect would leave alone is still left alone after
    the user has typed into it. *)
Lemma switched_after_setValue l k (v : ControlValue k) (c : FormControl (ControlValue k)) :
  switched l k c = c ->
  switched l k (revalidate (assign v c)) = revalidate (assign v c).
Proof.
  unfold switched. destruct (includes Key.eqb l k).
  - intro E. apply (f_equal (@validators _)) in E. simpl in E.
    unfold applied, revalidate, _runValidator. simpl. now rewrite <- E.
  - destruct (includes Key.eqb defaultDisplayForms k); [reflexivity|].
    intro E. apply (f_equal (@validators _)) in E. simpl in E.
    unfold cleared, revalidate, _runValidator. simpl. now rewrite <- E.
Qed.

Lemma control_of_setValue_same form v this :
  control_of (on_switchForm (control_setValue form v) this) form
  = revalidate (assign v (control_of this form)).
Proof.
  unfold control_of, on_switchForm, control_setValue, control_updateValueAndValidity.
  simpl. now rewrite set_control_twice, !control_set_control_same.
Qed.

Lemma control_of_setValue_other form v this k :
  form <> k ->
  control_of (on_switchForm (control_setValue form v) this) k = control_of this k.
Proof.
  intro N.
  unfold control_of, on_switchForm, control_setValue, control_updateValueAndValidity.
  simpl. rewrite set_control_twice. now apply control_set_control_other.
Qed.

Lemma setValue_settled form v this :
  settled (on_switchForm (control_setValue form v) this).
Proof. reflexivity. Qed.

Lemma setValue_steady this form v :
  form <> Key.customerType ->
  steady this -> steady (on_switchForm (control_setValue form v) this).
Proof.
  intros N (Hs & Hu & He). split; [|split].
  - unfold in_sync in *.
    change (customerType (FormGroup.controls
              (switchForm (on_switchForm (control_setValue form v) this))))
      with (control_of (on_switchForm (control_setValue form v) this) Key.customerType).
    rewrite control_of_setValue_other by exact N. exact Hs.
  - now apply setValue_customerType_unvalidated.
  - apply fixed_by_controls; [apply setValue_settled|].
    intro k.
    change (dynamicDisplayForms (on_switchForm (control_setValue form v) this))
      with (dynamicDisplayForms this).
    destruct (Key_eq_dec form k) as [<-|Nk].
    + rewrite control_of_setValue_same.
      apply switched_after_setValue. now apply effect_fixed_controls.
    + rewrite control_of_setValue_other by exact Nk. now apply effect_fixed_controls.
Qed.

(** The state right after the radio took the value [c] and the subscriber
    published it, before the effect. *)
Lemma published_steady this c :
  steady this ->
  dynamicDisplayForms this = dynamicDisplayFormsPattern c ->
  steady (customerType_valueChanges c
            (on_switchForm (control_setValue Key.customerType c) this)).
Proof.
  intros (Hs & Hu & He) El. split; [|split].
  - destruct this as [s [g t]]. reflexivity.
  - exact (setValue_customerType_unvalidated Key.customerType c this Hu).
  - apply fixed_by_controls; [reflexivity|].
    intro k.
    change (dynamicDisplayForms
              (customerType_valueChanges c
                 (on_switchForm (control_setValue Key.customerType c) this)))
      with (dynamicDisplayFormsPattern c).
    change (control_of
              (customerType_valueChanges c
                 (on_switchForm (control_setValue Key.customerType c) this)) k)
      with (control_of (on_switchForm (control_setValue Key.customerType c) this) k).
    destruct (Key_eq_dec Key.customerType k) as [<-|Nk].
    + unfold switched. now rewrite pattern_excludes_customerType.
    + rewrite control_of_setValue_other by exact Nk.
      rewrite <- El. now apply effect_fixed_controls.
Qed.

Lemma select_steady this c : steady this -> steady (selectCustomerType c this).
Proof.
  intro St. unfold selectCustomerType. cbv zeta.
  change (dynamicDisplayForms
            (customerType_valueChanges c
               (on_switchForm (control_setValue Key.customerType c) this)))
    with (dynamicDisplayFormsPattern c).
  destruct (same_forms (dynamicDisplayForms this) (dynamicDisplayFormsPattern c)) eqn:E.
  - apply same_forms_eq in E. now apply published_steady.
  - destruct St as (Hs & Hu & He). split; [|split].
    + unfold in_sync, _switchValidatorsEffect.
      rewrite switchValidators_signal.
      change (customerType (FormGroup.controls (switchForm ?x)))
        with (control_of x Key.customerType).
      rewrite switchValidators_control.
      rewrite (switched_value _ Key.customerType). destruct this as [s [g t]]. reflexivity.
    + apply switchValidators_customerType_unvalidated.
      exact (setValue_customerType_unvalidated Key.customerType c this Hu).
    + apply effect_idem.
Qed.

Lemma displayed_steady : steady displayed.
Proof. repeat split. Qed.

Lemma live_steady this : live this -> steady this.
Proof.
  induction 1 as [|this c L IH|this form v N L IH].
  - exact displayed_steady.
  - now apply select_steady.
  - now apply setValue_steady.
Qed.

Lemma live_reachable this : live this -> reachable this.
Proof.
  induction 1 as [|this c L IH|this form v N L IH].
  - unfold displayed. apply reach_effect, reach_ngOnInit, reach_new.
  - now apply reach_select.
  - now apply reach_setValue.
Qed.

(** In a steady state every control carries the validators of the selected
    customer type and up-to-date errors and status. *)
Lemma steady_control this k :
  steady this ->
  validators (control_of this k)
  = (if includes Key.eqb (dynamicDisplayForms this) k
     then formValidationManager k else [])
  /\ errors (control_of this k) = _runValidator (control_of this k)
  /\ status (control_of this k) = _calculateStatus (errors (control_of this k)).
Proof.
  intros (Hs & Hu & He).
  pose proof (effect_fixed_controls this k He) as H. unfold switched in H.
  destruct (includes Key.eqb (dynamicDisplayForms this) k).
  - rewrite <- H. repeat split.
  - destruct (includes Key.eqb defaultDisplayForms k) eqn:Ed.
    + apply default_is_customerType in Ed. subst k.
      destruct Hu as (V & E & S). unfold _runValidator.
      rewrite V, E, S. repeat split.
    + rewrite <- H. repeat split.
Qed.

(** Two steady states with the same values in their controls are equal. *)
Lemma steady_determined a b :
  steady a -> steady b ->
  (forall k, value (control_of a k) = value (control_of b k)) ->
  a = b.
Proof.
  intros (Sa & Ua & Ea) (Sb & Ub & Eb) V.
  assert (Es : _currentCustomerType a = _currentCustomerType b).
  { unfold in_sync in Sa, Sb. rewrite Sa, Sb. f_equal. exact (V Key.customerType). }
  assert (El : dynamicDisplayForms a = dynamicDisplayForms b).
  { unfold dynamicDisplayForms. now rewrite Es. }
  apply component_ext.
  - exact Es.
  - intro k.
    rewrite <- (effect_fixed_controls a k Ea), <- (effect_fixed_controls b k Eb).
    rewrite El. unfold switched.
    destruct (includes Key.eqb (dynamicDisplayForms b) k).
    + apply applied_value_only, V.
    + destruct (includes Key.eqb defaultDisplayForms k) eqn:Ed.
      * apply default_is_customerType in Ed. subst k.
        destruct Ua as (Va & Era & Sta), Ub as (Vb & Erb & Stb).
        specialize (V Key.customerType).
        destruct (control_of a Key.customerType), (control_of b Key.customerType).
        simpl in *. congruence.
      * apply cleared_value_only, V.
  - now apply effect_settled.
  - now apply effect_settled.
Qed.

Lemma select_radio_value c this :
  value (control_of (selectCustomerType c this) Key.customerType) = c.
Proof.
  unfold selectCustomerType. cbv zeta.
  match goal with |- context [if ?b then _ else _] => destruct b end.
  - destruct this as [s [g t]]. reflexivity.
  - unfold _switchValidatorsEffect. rewrite switchValidators_control.
    rewrite (switched_value _ Key.customerType). destruct this as [s [g t]]. reflexivity.
Qed.

Lemma select_text_value c this k :
  k <> Key.customerType ->
  value (control_of (selectCustomerType c this) k) = value (control_of this k).
Proof.
  intro N. unfold selectCustomerType. cbv zeta.
  assert (E : control_of
                (customerType_valueChanges c
                   (on_switchForm (control_setValue Key.customerType c) this)) k
              = control_of this k).
  { change (control_of (on_switchForm (control_setValue Key.customerType c) this) k
            = control_of this k).
    apply control_of_setValue_other. congruence. }
  match goal with |- context [if ?b then _ else _] => destruct b end.
  - now rewrite E.
  - unfold _switchValidatorsEffect. rewrite switchValidators_control.
    rewrite switched_value. now rewrite E.
Qed.

(* ------------------------------------------------------------------------- *)
(** ** What holds while the component is displayed *)

(** X4: while the component is displayed, the signal [_currentCustomerType]
    holds the value of the radio control, so the computed signal
    [dynamicDisplayForms] is the list of the customer type that is selected in
    the form. *)
Theorem live_signal_in_sync (this : SwitchFormComponent) :
  live this ->
  _currentCustomerType this
  = Some (value (customerType (FormGroup.controls (switchForm this))))
  /\ dynamicDisplayForms this
     = dynamicDisplayFormsPattern
         (value (customerType (FormGroup.controls (switchForm this)))).
Proof.
  intro L. destruct (live_steady this L) as (Hs & _ & _). split.
  - exact Hs.
  - unfold dynamicDisplayForms. unfold in_sync in Hs. now rewrite Hs.
Qed.

Lemma live_signal_in_sync_witness :
  _currentCustomerType
    (on_switchForm (control_setValue Key.name "Taro")
       (selectCustomerType corporate displayed))
  = Some corporate.
Proof.
  refine (proj1 (live_signal_in_sync _ _)).
  apply live_setValue; [discriminate|]. apply live_select, live_displayed.
Defined.

(** X8: selecting the customer type that is already selected changes
    nothing. *)
Theorem live_reselect_is_noop (this : SwitchFormComponent) (c : CustomerType) :
  live this ->
  _currentCustomerType this = Some c ->
  selectCustomerType c this = this.
Proof.
  intros L Hc. pose proof (live_steady this L) as St.
  apply steady_determined; [now apply select_steady | exact St |].
  intro k. destruct (Key_eq_dec k Key.customerType) as [->|N].
  - rewrite select_radio_value.
    destruct St as (Hs & _ & _). unfold in_sync in Hs. rewrite Hs in Hc.
    now injection Hc.
  - now apply select_text_value.
Qed.

Lemma live_reselect_is_noop_witness :
  selectCustomerType corporate (selectCustomerType corporate displayed)
  = selectCustomerType corporate displayed.
Proof.
  apply live_reselect_is_noop.
  - apply live_select, live_displayed.
  - reflexivity.
Defined.

(** X9: of two selections in a row only the last one counts: selecting [c']
    and then [c] leaves the displayed component as selecting [c] does. *)
Theorem live_last_selection_wins (this : SwitchFormComponent) (c c' : CustomerType) :
  live this ->
  selectCustomerType c (selectCustomerType c' this) = selectCustomerType c this.
Proof.
  intro L. pose proof (live_steady this L) as St.
  apply steady_determined.
  - now apply select_steady, select_steady.
  - now apply select_steady.
  - intro k. destruct (Key_eq_dec k Key.customerType) as [->|N].
    + now rewrite !select_radio_value.
    + now rewrite !select_text_value by exact N.
Qed.

Lemma live_last_selection_wins_witness :
  selectCustomerType individual
    (selectCustomerType corporate
       (on_switchForm (control_setValue Key.name "Taro") displayed))
  = selectCustomerType individual
      (on_switchForm (control_setValue Key.name "Taro") displayed).
Proof.
  apply live_last_selection_wins.
  apply live_setValue; [discriminate|]. apply live_displayed.
Defined.

(* ------------------------------------------------------------------------- *)
(** ** When the displayed form is valid *)

Lemma isEmptyInputValue_iff (v : string) :
  Validators.isEmptyInputValue v = true <-> v = "".
Proof.
  unfold Validators.isEmptyInputValue. destruct v; simpl; split; intro E;
    (reflexivity || discriminate E).
Qed.

Lemma group_valid_iff (g : SwitchForm) :
  group_calculateStatus g = VALID <-> forall k, status (control g k) = VALID.
Proof.
  unfold group_calculateStatus. simpl. split.
  - intros E k.
    destruct (status (customerType g)) eqn:E1; [|discriminate E].
    destruct (status (name g)) eqn:E2; [|discriminate E].
    destruct (status (nameKana g)) eqn:E3; [|discriminate E].
    destruct (status (companyName g)) eqn:E4; [|discriminate E].
    destruct (status (companyNameKana g)) eqn:E5; [|discriminate E].
    destruct k; assumption.
  - intro H.
    pose proof (H Key.customerType) as E1. pose proof (H Key.name) as E2.
    pose proof (H Key.nameKana) as E3. pose proof (H Key.companyName) as E4.
    pose proof (H Key.companyNameKana) as E5. simpl in *.
    now rewrite E1, E2, E3, E4, E5.
Qed.

(** A dynamically displayed form is a text control with [Validators.required]. *)
Lemma pattern_forms_required c k :
  includes Key.eqb (dynamicDisplayFormsPattern c) k = true ->
  formValidationManager k = [Validators.required].
Proof. destruct c, k; simpl; intro E; (reflexivity || discriminate E). Qed.

Lemma steady_status this k :
  steady this ->
  (status (control_of this k) = VALID
   <-> (In k (dynamicDisplayForms this) -> js_string (value (control_of this k)) <> "")).
Proof.
  intro St. destruct (steady_control this k St) as (V & E & S).
  rewrite S, E. unfold _runValidator. rewrite V.
  destruct (includes Key.eqb (dynamicDisplayForms this) k) eqn:Ei.
  - unfold dynamicDisplayForms, _getDynamicDisplayForms in Ei.
    rewrite (pattern_forms_required _ k Ei).
    apply includes_In in Ei. simpl.
    unfold Validators.mergeErrors, Validators.required. simpl.
    destruct (Validators.isEmptyInputValue (js_string (value (control_of this k)))) eqn:Em.
    + apply isEmptyInputValue_iff in Em. simpl. split; [discriminate|].
      intro H. contradiction (H Ei Em).
    + simpl. split; [|reflexivity]. intros _ _ Em'.
      apply isEmptyInputValue_iff in Em'. congruence.
  - apply includes_not_In in Ei. simpl. split; [tauto | reflexivity].
Qed.

(* ------------------------------------------------------------------------- *)
(** ** The displayed component while a run of the effect may be pending *)

Lemma fixed_controls l this k :
  _switchValidators l this = this ->
  switched l k (control_of this k) = control_of this k.
Proof. intro E. rewrite <- switchValidators_control. now rewrite E. Qed.

Lemma fixed_from_controls l this :
  settled this ->
  (forall k, switched l k (control_of this k) = control_of this k) ->
  _switchValidators l this = this.
Proof.
  intros S C. apply component_ext.
  - apply switchValidators_signal.
  - intro k. rewrite switchValidators_control. apply C.
  - apply switchValidators_settled.
  - exact S.
Qed.

Lemma fixed_settled l this : _switchValidators l this = this -> settled this.
Proof. intro E. rewrite <- E. apply switchValidators_settled. Qed.

Lemma kept_displayed : kept displayed (dynamicDisplayForms displayed).
Proof.
  split; [reflexivity|]. split; [repeat split|].
  split; [now exists individual | reflexivity].
Qed.

Lemma kept_publish this seen c :
  kept this seen -> kept (publishCustomerType c this) seen.
Proof.
  intros (Hs & Hu & (c0 & Hc) & He). split; [|split; [|split]].
  - destruct this as [s [g t]]. reflexivity.
  - exact (setValue_customerType_unvalidated Key.customerType c this Hu).
  - now exists c0.
  - apply fixed_from_controls; [reflexivity|].
    intro k.
    change (control_of (publishCustomerType c this) k)
      with (control_of (on_switchForm (control_setValue Key.customerType c) this) k).
    destruct (Key_eq_dec Key.customerType k) as [<-|Nk].
    + unfold switched. subst seen. now rewrite pattern_excludes_customerType.
    + rewrite control_of_setValue_other by exact Nk. now apply fixed_controls.
Qed.

Lemma kept_setValue this seen form v :
  form <> Key.customerType ->
  kept this seen -> kept (on_switchForm (control_setValue form v) this) seen.
Proof.
  intros N (Hs & Hu & Hc & He). split; [|split; [|split]].
  - unfold in_sync in *.
    change (customerType (FormGroup.controls
              (switchForm (on_switchForm (control_setValue form v) this))))
      with (control_of (on_switchForm (control_setValue form v) this) Key.customerType).
    rewrite control_of_setValue_other by exact N. exact Hs.
  - now apply setValue_customerType_unvalidated.
  - exact Hc.
  - apply fixed_from_controls; [apply setValue_settled|].
    intro k. destruct (Key_eq_dec form k) as [<-|Nk].
    + rewrite control_of_setValue_same.
      apply switched_after_setValue. now apply fixed_controls.
    + rewrite control_of_setValue_other by exact Nk. now apply fixed_controls.
Qed.

Lemma kept_flush this seen :
  kept this seen -> kept (flushEffect seen this) (dynamicDisplayForms this).
Proof.
  intros (Hs & Hu & Hc & He). unfold flushEffect.
  destruct (same_forms seen (dynamicDisplayForms this)) eqn:E.
  - apply same_forms_eq in E. rewrite <- E. exact (conj Hs (conj Hu (conj Hc He))).
  - split; [|split; [|split]].
    + unfold in_sync, _switchValidatorsEffect.
      rewrite switchValidators_signal.
      change (customerType (FormGroup.controls (switchForm ?x)))
        with (control_of x Key.customerType).
      rewrite switchValidators_control.
      rewrite (switched_value _ Key.customerType). exact Hs.
    + now apply switchValidators_customerType_unvalidated.
    + now exists (nullish (_currentCustomerType this) individual).
    + apply fixed_from_controls; [apply switchValidators_settled|].
      intro k. unfold _switchValidatorsEffect.
      rewrite switchValidators_control. apply switched_idem.
Qed.

Lemma alive_kept this seen : alive this seen -> kept this seen.
Proof.
  induction 1 as [|this seen c A IH|this seen form v N A IH|this seen A IH].
  - exact kept_displayed.
  - now apply kept_publish.
  - now apply kept_setValue.
  - now apply kept_flush.
Qed.

Lemma kept_steady this seen :
  kept this seen -> seen = dynamicDisplayForms this -> steady this.
Proof. intros (Hs & Hu & _ & He) E. subst seen. exact (conj Hs (conj Hu He)). Qed.

Lemma kept_control this seen k :
  kept this seen ->
  validators (control_of this k)
  = (if includes Key.eqb seen k then formValidationManager k else [])
  /\ errors (control_of this k) = _runValidator (control_of this k)
  /\ status (control_of this k) = _calculateStatus (errors (control_of this k)).
Proof.
  intros (Hs & Hu & _ & He).
  pose proof (fixed_controls seen this k He) as H. unfold switched in H.
  destruct (includes Key.eqb seen k).
  - rewrite <- H. repeat split.
  - destruct (includes Key.eqb defaultDisplayForms k) eqn:Ed.
    + apply default_is_customerType in Ed. subst k.
      destruct Hu as (V & E & S). unfold _runValidator.
      rewrite V, E, S. repeat split.
    + rewrite <- H. repeat split.
Qed.

Lemma kept_status this seen k :
  kept this seen ->
  (status (control_of this k) = VALID
   <-> (In k seen -> js_string (value (control_of this k)) <> "")).
Proof.
  intro K. destruct (kept_control this seen k K) as (V & E & S).
  destruct K as (_ & _ & (c & Hc) & _).
  rewrite S, E. unfold _runValidator. rewrite V.
  destruct (includes Key.eqb seen k) eqn:Ei.
  - pose proof Ei as Ei'. rewrite Hc in Ei'.
    rewrite (pattern_forms_required c k Ei').
    apply includes_In in Ei. simpl.
    unfold Validators.mergeErrors, Validators.required. simpl.
    destruct (Validators.isEmptyInputValue (js_string (value (control_of this k)))) eqn:Em.
    + apply isEmptyInputValue_iff in Em. simpl. split; [discriminate|].
      intro H. contradiction (H Ei Em).
    + simpl. split; [|reflexivity]. intros _ _ Em'.
      apply isEmptyInputValue_iff in Em'. congruence.
  - apply includes_not_In in Ei. simpl. split; [tauto | reflexivity].
Qed.

(** Two states that the effect last served with the same list and that hold
    the same values are equal. *)
Lemma kept_determined a b seen :
  kept a seen -> kept b seen ->
  (forall k, value (control_of a k) = value (control_of b k)) ->
  a = b.
Proof.
  intros (Sa & Ua & _ & Ea) (Sb & Ub & _ & Eb) V.
  apply component_ext.
  - unfold in_sync in Sa, Sb. rewrite Sa, Sb. f_equal. exact (V Key.customerType).
  - intro k.
    rewrite <- (fixed_controls seen a k Ea), <- (fixed_controls seen b k Eb).
    unfold switched.
    destruct (includes Key.eqb seen k).
    + apply applied_value_only, V.
    + destruct (includes Key.eqb defaultDisplayForms k) eqn:Ed.
      * apply default_is_customerType in Ed. subst k.
        destruct Ua as (Va & Era & Sta), Ub as (Vb & Erb & Stb).
        specialize (V Key.customerType).
        destruct (control_of a Key.customerType), (control_of b Key.customerType).
        simpl in *. congruence.
      * apply cleared_value_only, V.
  - now apply (fixed_settled seen).
  - now apply (fixed_settled seen).
Qed.

(** The state between a selection and the flush of the effect. *)
Lemma alive_pending :
  alive
    (on_switchForm (control_setValue Key.companyNameKana "akume")
       (on_switchForm (control_setValue Key.companyName "ACME")
          (publishCustomerType corporate displayed)))
    [Key.name; Key.nameKana].
Proof.
  apply alive_setValue; [discriminate|]. apply alive_setValue; [discriminate|].
  apply alive_publish. exact alive_displayed.
Qed.

(** X5: in every state of the displayed component, also while a run of the
    effect is pending, every control carries exactly the validators of the
    list [seen] that the effect last ran with (those of
    [formValidationManager] for a form of that list, none otherwise), and its
    errors and status are those its validators give on its value.  When no
    run is pending, [seen] is the list of the selected customer type. *)
Theorem alive_validators_follow_effect
    (this : SwitchFormComponent) (seen : list Key.t) (k : Key.t) :
  alive this seen ->
  (validators (control_of this k)
   = (if includes Key.eqb seen k then formValidationManager k else [])
   /\ errors (control_of this k) = _runValidator (control_of this k)
   /\ status (control_of this k) = _calculateStatus (errors (control_of this k)))
  /\ (seen = dynamicDisplayForms this ->
      validators (control_of this k)
      = (if includes Key.eqb (dynamicDisplayForms this) k
         then formValidationManager k else [])).
Proof.
  intro A. pose proof (kept_control this seen k (alive_kept this seen A)) as H.
  split; [exact H|]. intro E. rewrite <- E. apply H.
Qed.

Lemma alive_validators_follow_effect_witness :
  validators
    (control_of
       (on_switchForm (control_setValue Key.companyNameKana "akume")
          (on_switchForm (control_setValue Key.companyName "ACME")
             (publishCustomerType corporate displayed)))
       Key.name)
  = [Validators.required].
Proof.
  exact (proj1 (proj1 (alive_validators_follow_effect _ _ Key.name alive_pending))).
Defined.

(** X6: in every state of the displayed component, running the body of the
    effect with the list it last ran with changes nothing; so when the
    computed signal still yields that list, the effect has nothing to do and
    skipping it loses nothing. *)
Theorem alive_effect_has_nothing_to_do
    (this : SwitchFormComponent) (seen : list Key.t) :
  alive this seen ->
  _switchValidators seen this = this
  /\ (seen = dynamicDisplayForms this ->
      _switchValidatorsEffect this = this /\ flushEffect seen this = this).
Proof.
  intro A. destruct (alive_kept this seen A) as (_ & _ & _ & E).
  split; [exact E|]. intro Es. split.
  - unfold _switchValidatorsEffect. now rewrite <- Es.
  - unfold flushEffect. rewrite <- Es.
    assert (same_forms seen seen = true) as -> by now apply same_forms_eq.
    reflexivity.
Qed.

Lemma alive_effect_has_nothing_to_do_witness :
  _switchValidators [Key.name; Key.nameKana]
    (on_switchForm (control_setValue Key.companyNameKana "akume")
       (on_switchForm (control_setValue Key.companyName "ACME")
          (publishCustomerType corporate displayed)))
  = on_switchForm (control_setValue Key.companyNameKana "akume")
      (on_switchForm (control_setValue Key.companyName "ACME")
         (publishCustomerType corporate displayed)).
Proof. exact (proj1 (alive_effect_has_nothing_to_do _ _ alive_pending)). Defined.

(** X7: the displayed component keeps no history beyond the list the effect
    last ran with: two of its states with the same such list and the same
    value in each of the five controls are equal.  In particular two states
    in which no run of the effect is pending are equal when they hold the same
    values. *)
Theorem alive_state_determined_by_values
    (a b : SwitchFormComponent) (seen_a seen_b : list Key.t) :
  alive a seen_a -> alive b seen_b ->
  (forall k, value (control_of a k) = value (control_of b k)) ->
  seen_a = seen_b
  \/ (seen_a = dynamicDisplayForms a /\ seen_b = dynamicDisplayForms b) ->
  a = b.
Proof.
  intros Aa Ab V [E|[Ea Eb]].
  - subst seen_b. apply (kept_determined a b seen_a); [| |exact V]; now apply alive_kept.
  - apply steady_determined; [| |exact V].
    + exact (kept_steady a seen_a (alive_kept a seen_a Aa) Ea).
    + exact (kept_steady b seen_b (alive_kept b seen_b Ab) Eb).
Qed.

Lemma alive_state_determined_by_values_witness :
  flushEffect [Key.companyName; Key.companyNameKana]
    (publishCustomerType individual
       (flushEffect [Key.name; Key.nameKana]
          (publishCustomerType corporate displayed)))
  = publishCustomerType individual (publishCustomerType corporate displayed).
Proof.
  apply (alive_state_determined_by_values _ _ [Key.name; Key.nameKana]
           [Key.name; Key.nameKana]).
  - change (alive
              (flushEffect [Key.companyName; Key.companyNameKana]
                 (publishCustomerType individual
                    (flushEffect [Key.name; Key.nameKana]
                       (publishCustomerType corporate displayed))))
              (dynamicDisplayForms
                 (publishCustomerType individual
                    (flushEffect [Key.name; Key.nameKana]
                       (publishCustomerType corporate displayed))))).
    apply alive_flush, alive_publish.
    change (alive
              (flushEffect [Key.name; Key.nameKana]
                 (publishCustomerType corporate displayed))
              (dynamicDisplayForms (publishCustomerType corporate displayed))).
    apply alive_flush, alive_publish. exact alive_displayed.
  - apply alive_publish, alive_publish. exact alive_displayed.
  - intro k. destruct k; reflexivity.
  - left. reflexivity.
Defined.

(** X10: in every state of the displayed component the form group is [VALID]
    exactly when every control of the list the effect last ran with has a
    non-empty value; the other controls do not matter.  When no run of the
    effect is pending this is the list [dynamicDisplayForms()]. *)
Theorem alive_form_valid_iff (this : SwitchFormComponent) (seen : list Key.t) :
  alive this seen ->
  (FormGroup.status (switchForm this) = VALID
   <-> forall k, In k seen -> js_string (value (control_of this k)) <> "")
  /\ (seen = dynamicDisplayForms this ->
      (FormGroup.status (switchForm this) = VALID
       <-> forall k, In k (dynamicDisplayForms this) ->
                     js_string (value (control_of this k)) <> "")).
Proof.
  intro A. pose proof (alive_kept this seen A) as K.
  assert (H : FormGroup.status (switchForm this) = VALID
              <-> forall k, In k seen -> js_string (value (control_of this k)) <> "").
  { destruct K as (Hs & Hu & Hc & He).
    rewrite (fixed_settled seen this He), group_valid_iff.
    split.
    - intros H k. apply (kept_status this seen k (conj Hs (conj Hu (conj Hc He)))), H.
    - intros H k. apply (kept_status this seen k (conj Hs (conj Hu (conj Hc He)))), H. }
  split; [exact H|]. intro E. rewrite <- E. exact H.
Qed.

(** While the effect is pending after a switch to [corporate], the form is
    still judged by the controls of [individual]: it is invalid although both
    company fields are filled. *)
Lemma alive_form_valid_iff_witness :
  FormGroup.status
    (switchForm
       (on_switchForm (control_setValue Key.companyNameKana "akume")
          (on_switchForm (control_setValue Key.companyName "ACME")
             (publishCustomerType corporate displayed))))
  <> VALID.
Proof.
  intro E.
  apply (proj1 (proj1 (alive_form_valid_iff _ _ alive_pending))) with (k := Key.name) in E.
  - apply E. reflexivity.
  - simpl. now left.
Defined.

(* ------------------------------------------------------------------------- *)
(** ** Typing and selecting, in either order *)

(** X11: typing into a text control and selecting a customer type commute:
    from every state, either order gives the same state. *)
Theorem select_commutes_with_setValue
    (this : SwitchFormComponent) (c : CustomerType)
    (form : Key.t) (v : ControlValue form) :
  form <> Key.customerType ->
  selectCustomerType c (on_switchForm (control_setValue form v) this)
  = on_switchForm (control_setValue form v) (selectCustomerType c this).
Proof.
  intro N. unfold selectCustomerType. cbv zeta.
  change (dynamicDisplayForms (on_switchForm (control_setValue form v) this))
    with (dynamicDisplayForms this).
  change (dynamicDisplayForms
            (customerType_valueChanges c
               (on_switchForm (control_setValue Key.customerType c)
                  (on_switchForm (control_setValue form v) this))))
    with (dynamicDisplayFormsPattern c).
  change (dynamicDisplayForms
            (customerType_valueChanges c
               (on_switchForm (control_setValue Key.customerType c) this)))
    with (dynamicDisplayFormsPattern c).
  assert (P : customerType_valueChanges c
                (on_switchForm (control_setValue Key.customerType c)
                   (on_switchForm (control_setValue form v) this))
              = on_switchForm (control_setValue form v)
                  (customerType_valueChanges c
                     (on_switchForm (control_setValue Key.customerType c) this))).
  { destruct this as [s [[c1 c2 c3 c4 c5] t]].
    destruct form; [contradiction N; reflexivity | reflexivity ..]. }
  destruct (same_forms (dynamicDisplayForms this) (dynamicDisplayFormsPattern c)).
  - exact P.
  - rewrite P. unfold _switchValidatorsEffect.
    change (dynamicDisplayForms
              (on_switchForm (control_setValue form v)
                 (customerType_valueChanges c
                    (on_switchForm (control_setValue Key.customerType c) this))))
      with (dynamicDisplayFormsPattern c).
    change (dynamicDisplayForms
              (customerType_valueChanges c
                 (on_switchForm (control_setValue Key.customerType c) this)))
      with (dynamicDisplayFormsPattern c).
    set (p := customerType_valueChanges c
                (on_switchForm (control_setValue Key.customerType c) this)).
    apply component_ext.
    + rewrite switchValidators_signal. unfold on_switchForm.
      cbn [_currentCustomerType]. now rewrite switchValidators_signal.
    + intro k. rewrite switchValidators_control.
      destruct (Key_eq_dec form k) as [<-|Nk].
      * rewrite !control_of_setValue_same, switchValidators_control.
        unfold switched.
        destruct (includes Key.eqb (dynamicDisplayFormsPattern c) form).
        -- reflexivity.
        -- destruct (includes Key.eqb defaultDisplayForms form) eqn:Ed;
             [apply default_is_customerType in Ed; contradiction | reflexivity].
      * rewrite !control_of_setValue_other by exact Nk.
        now rewrite switchValidators_control.
    + apply switchValidators_settled.
    + apply setValue_settled.
Qed.

Lemma select_commutes_with_setValue_witness :
  selectCustomerType corporate
    (on_switchForm (control_setValue Key.companyName "ACME") stale_component)
  = on_switchForm (control_setValue Key.companyName "ACME")
      (selectCustomerType corporate stale_component).
Proof.
  apply (select_commutes_with_setValue stale_component corporate Key.companyName "ACME").
  discriminate.
Defined.

(* ------------------------------------------------------------------------- *)
(** ** The first run of the effect and [ngOnInit] *)

(** X12: when the radio holds the customer type that the computed signal
    already assumes (the signal's value, or [individual] while the signal is
    [null]), the effect and [ngOnInit] can run in either order with the same
    result; this is the case for the freshly created component. *)
Theorem effect_commutes_with_ngOnInit (this : SwitchFormComponent) :
  nullish (_currentCustomerType this) individual
  = value (customerType (FormGroup.controls (switchForm this))) ->
  _switchValidatorsEffect (ngOnInit this) = ngOnInit (_switchValidatorsEffect this).
Proof.
  intro E.
  assert (El : dynamicDisplayForms (ngOnInit this) = dynamicDisplayForms this).
  { unfold dynamicDisplayForms, ngOnInit. simpl. now rewrite E. }
  unfold _switchValidatorsEffect. rewrite El.
  apply component_ext.
  - rewrite switchValidators_signal. unfold ngOnInit. simpl. f_equal.
    change (customerType (FormGroup.controls (switchForm ?x)))
      with (control_of x Key.customerType).
    rewrite switchValidators_control.
    now rewrite (switched_value _ Key.customerType).
  - intro k. rewrite switchValidators_control.
    change (control_of (ngOnInit (_switchValidators (dynamicDisplayForms this) this)) k)
      with (control_of (_switchValidators (dynamicDisplayForms this) this) k).
    now rewrite switchValidators_control.
  - apply switchValidators_settled.
  - exact (switchValidators_settled (dynamicDisplayForms this) this).
Qed.

Lemma effect_commutes_with_ngOnInit_witness :
  _switchValidatorsEffect (ngOnInit new_SwitchFormComponent)
  = ngOnInit (_switchValidatorsEffect new_SwitchFormComponent).
Proof. apply effect_commutes_with_ngOnInit. reflexivity. Defined.

(** When the radio holds another customer type than the signal assumes, the
    order matters: an effect that runs before [ngOnInit] installs the
    validators of [individual]. *)
Example effect_before_ngOnInit_differs :
  _switchValidatorsEffect
    (ngOnInit (mkComponent None (switchForm stale_component)))
  <> ngOnInit
       (_switchValidatorsEffect (mkComponent None (switchForm stale_component))).
Proof.
  intro E.
  apply (f_equal (fun t => List.length (validators (control_of t Key.name)))) in E.
  discriminate E.
Qed.

(* ------------------------------------------------------------------------- *)
(** ** When the run-time method throws *)

Lemma obj_set_same_keys {V : Type} (o : Obj string V) (k : string) (v : V) :
  In k (Object_keys o) -> Object_keys (obj_set String.eqb k v o) = Object_keys o.
Proof.
  induction o as [|[k0 v0] o IH]; simpl; [tauto|].
  intro Hk. destruct (String.eqb_spec k k0) as [->|N]; simpl; [reflexivity|].
  f_equal. apply IH. destruct Hk as [E|Hk]; [congruence | exact Hk].
Qed.

Lemma obj_get_None_iff {V : Type} (o : Obj string V) (k : string) :
  obj_get String.eqb o k = None <-> ~ In k (Object_keys o).
Proof.
  split.
  - intros E Hk. destruct (obj_get_defined o k Hk) as [v Ev]. congruence.
  - apply obj_get_undefined.
Qed.

Lemma Runtime_call_indexes form m fg :
  (In form (Object_keys (Runtime.controls fg)) ->
   exists fg', Runtime.call form m fg = Runtime.Normal fg'
               /\ Object_keys (Runtime.controls fg')
                  = Object_keys (Runtime.controls fg))
  /\ (~ In form (Object_keys (Runtime.controls fg)) ->
      Runtime.call form m fg = Runtime.Throw_TypeError).
Proof.
  unfold Runtime.call. split; intro Hf.
  - destruct (obj_get_defined _ form Hf) as [c ->]. eexists. split; [reflexivity|].
    simpl. now apply obj_set_same_keys.
  - now rewrite (obj_get_undefined _ form Hf).
Qed.

Lemma Runtime_update_indexes form fg :
  (In form (Object_keys (Runtime.controls fg)) ->
   exists fg', Runtime.call_updateValueAndValidity form fg = Runtime.Normal fg'
               /\ Object_keys (Runtime.controls fg')
                  = Object_keys (Runtime.controls fg))
  /\ (~ In form (Object_keys (Runtime.controls fg)) ->
      Runtime.call_updateValueAndValidity form fg = Runtime.Throw_TypeError).
Proof.
  unfold Runtime.call_updateValueAndValidity. split; intro Hf.
  - destruct (obj_get_defined _ form Hf) as [c ->]. eexists. split; [reflexivity|].
    simpl. now apply obj_set_same_keys.
  - now rewrite (obj_get_undefined _ form Hf).
Qed.

Lemma Runtime_loop1_indexes :
  indexes_controls
    (fun form fg =>
       Runtime.bind (Runtime.call form clearValidators fg) (fun fg =>
       Runtime.bind
         (Runtime.call form
            (Runtime.setValidators_opt
               (obj_get String.eqb Runtime.formValidationManager form)) fg)
         (fun fg => Runtime.call_updateValueAndValidity form fg))).
Proof.
  intros form fg. split; intro Hf.
  - destruct (proj1 (Runtime_call_indexes form clearValidators fg) Hf) as (g1 & -> & K1).
    cbn [Runtime.bind]. rewrite <- K1 in Hf.
    destruct (proj1 (Runtime_call_indexes form
                       (Runtime.setValidators_opt
                          (obj_get String.eqb Runtime.formValidationManager form)) g1) Hf)
      as (g2 & -> & K2).
    cbn [Runtime.bind]. rewrite <- K2 in Hf.
    destruct (proj1 (Runtime_update_indexes form g2) Hf) as (g3 & -> & K3).
    exists g3. split; [reflexivity | congruence].
  - now rewrite (proj2 (Runtime_call_indexes form clearValidators fg) Hf).
Qed.

Lemma Runtime_loop2_indexes :
  indexes_controls
    (fun form fg =>
       Runtime.bind (Runtime.call form clearValidators fg) (fun fg =>
       Runtime.call_updateValueAndValidity form fg)).
Proof.
  intros form fg. split; intro Hf.
  - destruct (proj1 (Runtime_call_indexes form clearValidators fg) Hf) as (g1 & -> & K1).
    cbn [Runtime.bind]. rewrite <- K1 in Hf.
    destruct (proj1 (Runtime_update_indexes form g1) Hf) as (g2 & -> & K2).
    exists g2. split; [reflexivity | congruence].
  - now rewrite (proj2 (Runtime_call_indexes form clearValidators fg) Hf).
Qed.

Lemma Runtime_forEach_indexes body :
  indexes_controls body ->
  forall l fg,
    ((forall form, In form l -> In form (Object_keys (Runtime.controls fg))) ->
     exists fg', Runtime.forEach l body fg = Runtime.Normal fg'
                 /\ Object_keys (Runtime.controls fg')
                    = Object_keys (Runtime.controls fg))
    /\ ((exists form, In form l /\ ~ In form (Object_keys (Runtime.controls fg))) ->
        Runtime.forEach l body fg = Runtime.Throw_TypeError).
Proof.
  intros B l. induction l as [|a l IH]; intro fg; split.
  - intros _. exists fg. split; reflexivity.
  - intros (form & [] & _).
  - intro H. destruct (proj1 (B a fg) (H a (or_introl eq_refl))) as (g1 & E1 & K1).
    simpl. rewrite E1. cbn [Runtime.bind].
    destruct (proj1 (IH g1)) as (g2 & E2 & K2).
    + intros form Hf. rewrite K1. apply H. now right.
    + exists g2. split; [exact E2 | congruence].
  - intros (form & Hf & Hn). simpl.
    destruct (in_dec string_dec a (Object_keys (Runtime.controls fg))) as [Ha|Ha].
    + destruct (proj1 (B a fg) Ha) as (g1 & E1 & K1).
      rewrite E1. cbn [Runtime.bind]. apply (proj2 (IH g1)).
      destruct Hf as [->|Hf]; [contradiction|].
      exists form. split; [exact Hf | now rewrite K1].
    + now rewrite (proj2 (B a fg) Ha).
Qed.

(** Completion of the method in terms of own properties: it throws exactly
    when [obj_get] finds no control for one of the visited forms. *)
Lemma Runtime_completion_by_own_controls (l : list string) (fg : Runtime.Group) :
  (Runtime._switchValidators l fg = Runtime.Throw_TypeError
   <-> exists form, In form (visitedForms l)
                    /\ obj_get String.eqb (Runtime.controls fg) form = None)
  /\ ((forall form, In form (visitedForms l) ->
         obj_get String.eqb (Runtime.controls fg) form <> None) ->
      exists fg', Runtime._switchValidators l fg = Runtime.Normal fg'
                  /\ Object_keys (Runtime.controls fg')
                     = Object_keys (Runtime.controls fg)).
Proof.
  assert (N : (forall form, In form (visitedForms l) ->
                 obj_get String.eqb (Runtime.controls fg) form <> None) ->
              exists fg', Runtime._switchValidators l fg = Runtime.Normal fg'
                          /\ Object_keys (Runtime.controls fg')
                             = Object_keys (Runtime.controls fg)).
  { intro H. unfold Runtime._switchValidators. cbv zeta.
    destruct (proj1 (Runtime_forEach_indexes _ Runtime_loop1_indexes l fg))
      as (g1 & -> & K1).
    { intros form Hf.
      destruct (in_dec string_dec form (Object_keys (Runtime.controls fg))) as [I|I];
        [exact I|].
      apply obj_get_None_iff in I. contradiction (H form).
      unfold visitedForms. apply in_or_app. now left. }
    cbn [Runtime.bind].
    destruct (proj1 (Runtime_forEach_indexes _ Runtime_loop2_indexes
                       (Runtime.hiddenForms (Object_keys Runtime.formValidationManager) l)
                       g1))
      as (g2 & -> & K2).
    { intros form Hf. rewrite K1.
      destruct (in_dec string_dec form (Object_keys (Runtime.controls fg))) as [I|I];
        [exact I|].
      apply obj_get_None_iff in I. contradiction (H form).
      unfold visitedForms. apply in_or_app. now right. }
    exists g2. split; [reflexivity | congruence]. }
  split; [|exact N]. split.
  - intro T.
    destruct (Exists_dec
                (fun form => obj_get String.eqb (Runtime.controls fg) form = None)
                (visitedForms l)) as [E|E].
    { intro form. destruct (obj_get String.eqb (Runtime.controls fg) form);
        [right; discriminate | left; reflexivity]. }
    + apply Exists_exists in E. exact E.
    + destruct N as (g & Eg & _).
      * intros form Hf En. apply E, Exists_exists. now exists form.
      * rewrite Eg in T. discriminate T.
  - intros (form & Hf & En). apply obj_get_None_iff in En.
    unfold visitedForms in Hf. apply in_app_or in Hf.
    unfold Runtime._switchValidators. cbv zeta.
    destruct Hf as [Hf|Hf].
    + rewrite (proj2 (Runtime_forEach_indexes _ Runtime_loop1_indexes l fg));
        [reflexivity|]. now exists form.
    + destruct (Runtime.forEach l _ fg) as [g1|] eqn:E1; [|reflexivity].
      cbn [Runtime.bind].
      apply (proj2 (Runtime_forEach_indexes _ Runtime_loop2_indexes _ g1)).
      exists form. split; [exact Hf|].
      destruct (in_dec string_dec form (Object_keys (Runtime.controls g1))) as [I|I];
        [|exact I].
      exfalso.
      destruct (Forall_Exists_dec
                  (fun f => In f (Object_keys (Runtime.controls fg)))
                  (fun f => in_dec string_dec f (Object_keys (Runtime.controls fg))) l)
        as [A|A].
      * rewrite Forall_forall in A.
        destruct (proj1 (Runtime_forEach_indexes _ Runtime_loop1_indexes l fg) A)
          as (g1' & E1' & K1).
        rewrite E1 in E1'. injection E1' as <-. rewrite K1 in I. contradiction.
      * apply Exists_exists in A.
        rewrite (proj2 (Runtime_forEach_indexes _ Runtime_loop1_indexes l fg)) in E1;
          [discriminate E1 | exact A].
Qed.

(** A control without an entry in [formValidationManager] is no error: the
    method completes and the control is left without validators. *)
Example switchValidators_form_without_rules :
  Runtime._switchValidators ["address"]
    (Runtime.mkGroup
       [ ("customerType", new_FormControl "individual");
         ("name", new_FormControl "");
         ("nameKana", new_FormControl "");
         ("companyName", new_FormControl "");
         ("companyNameKana", new_FormControl "");
         ("address", mkFormControl "" [Validators.required] None VALID) ]
       VALID)
  = Runtime.Normal
      (Runtime.mkGroup
         [ ("customerType", new_FormControl "individual");
           ("name", new_FormControl "");
           ("nameKana", new_FormControl "");
           ("companyName", new_FormControl "");
           ("companyNameKana", new_FormControl "");
           ("address", new_FormControl "") ]
         VALID).
Proof. reflexivity. Qed.

(** X13: for lists and groups whose names are ordinary (none is a property
    name of [Object.prototype], so that [o[k]] reads own properties only), the
    run-time [_switchValidators] throws a [TypeError] exactly when one of the
    forms it visits (those of the list, then the hidden ones) has no control
    in the group; otherwise it completes normally and the group keeps its
    keys.  A form without an entry in [formValidationManager] does not make
    it throw. *)
Theorem Runtime_switchValidators_throws_iff_ordinary
    (l : list string) (fg : Runtime.Group) :
  ordinary_names l ->
  ordinary_names (Object_keys (Runtime.controls fg)) ->
  (Runtime._switchValidators l fg = Runtime.Throw_TypeError
   <-> exists form, In form (visitedForms l)
                    /\ ~ In form (Object_keys (Runtime.controls fg)))
  /\ ((forall form, In form (visitedForms l) ->
         In form (Object_keys (Runtime.controls fg))) ->
      exists fg', Runtime._switchValidators l fg = Runtime.Normal fg'
                  /\ Object_keys (Runtime.controls fg')
                     = Object_keys (Runtime.controls fg)
                  /\ ordinary_names (Object_keys (Runtime.controls fg'))).
Proof.
  intros Ol Ofg.
  destruct (Runtime_completion_by_own_controls l fg) as [T N]. split.
  - rewrite T. split; intros (form & Hf & E); exists form; (split; [exact Hf|]);
      now apply obj_get_None_iff.
  - intro H. destruct N as (fg' & E & K).
    + intros form Hf En. apply obj_get_None_iff in En. apply En, H, Hf.
    + exists fg'. split; [exact E|]. split; [exact K|]. now rewrite K.
Qed.

(** A group that lost the control [companyNameKana]: the list of
    [individual] is served by loop [1], and loop [2] throws. *)
Lemma Runtime_switchValidators_throws_iff_ordinary_witness :
  Runtime._switchValidators ["name"; "nameKana"]
    (Runtime.mkGroup
       [ ("customerType", new_FormControl "individual");
         ("name", new_FormControl "");
         ("nameKana", new_FormControl "");
         ("companyName", new_FormControl "") ]
       VALID)
  = Runtime.Throw_TypeError.
Proof.
  destruct (Runtime_switchValidators_throws_iff_ordinary ["name"; "nameKana"]
              (Runtime.mkGroup
                 [ ("customerType", new_FormControl "individual");
                   ("name", new_FormControl "");
                   ("nameKana", new_FormControl "");
                   ("companyName", new_FormControl "") ]
                 VALID)) as [T _].
  - intros k [<-|[<-|[]]] I; simpl in I;
      repeat (destruct I as [I|I]; [discriminate I|]); exact I.
  - intros k [<-|[<-|[<-|[<-|[]]]]] I; simpl in I;
      repeat (destruct I as [I|I]; [discriminate I|]); exact I.
  - apply T. exists "companyNameKana". split.
    + unfold visitedForms. simpl. auto 10.
    + simpl. intros [E|[E|[E|[E|[]]]]]; discriminate E.
Defined.
